(** * relay-plugin-letsencrypt: a shallow embedding of the two plugin variants

    The repository holds two near-duplicate plugins:

    - [Fs]     : the [letsencrypt] plugin, which keeps [ssl.key] / [ssl.cert]
                 under a configuration directory and guards renewals with
                 [renewMutex];
    - [Remote] : the [letsencrypt-ssl] plugin, which stores the account key
                 as a seed-addressed small file and publishes certificates
                 through [api.ssl.set] / [api.ssl.save].

    Asynchronous functions are modelled in one monad [M]: a computation
    takes the state of the process, and gives back how it ended (it returned,
    threw, stopped to wait for the mutex, or ended the process), the state it
    left, and the events it produced, in order.  What the external
    collaborators answer (the CA, the file system, the key generator, the
    clock) is an input of each invocation.

    Invocations are run one after another, each from the state the earlier
    ones left.  Two invocations interleaved at their [await]s are not
    modelled; what another task can see at an [await] is recorded in the
    trace. *)

From stdpp Require Import gmap strings list.
From Stdlib Require Import ZArith Ascii String.

Local Open Scope Z_scope.

(** ** JavaScript strings and truthiness *)

Module Js.

  (** [String.prototype.toLowerCase], on the 8-bit characters a [string]
      holds: the letters [A]-[Z] are lowered, the rest is kept. *)
Definition lower_ascii (c : ascii) : ascii :=
    let n := nat_of_ascii c in
    if ((65 <=? n)%nat && (n <=? 90)%nat)%bool then ascii_of_nat (n + 32) else c.

Fixpoint toLowerCase (s : string) : string :=
    match s with
    | EmptyString => EmptyString
    | String c r => String (lower_ascii c) (toLowerCase r)
    end.

  (** [String.prototype.includes]: [needle] occurs in [s] as a substring. *)
Fixpoint includes (needle s : string) : bool :=
    String.prefix needle s ||
    match s with
    | EmptyString => false
    | String _ r => includes needle r
    end.

  (** A string variable that may still be [undefined]; [!v] is true for
      [undefined] and for the empty string. *)
Definition truthy (v : option string) : bool :=
    match v with
    | Some s => negb (String.eqb s "")
    | None => false
    end.

  (** [path.join] of two plain segments: [a] does not end and [b] does not
      start with a separator, neither is empty, and there is no [.] or [..]
      to normalise; on any other input [path.join] gives something else. *)
Definition path_join (a b : string) : string := a +:+ "/" +:+ b.

End Js.

(** ** Outcomes, events and the monad *)

Inductive error : Type :=
| AcmeError       (* the ACME client rejected: challenge failed, CA unreachable, ... *)
| CryptoError     (* key or CSR generation failed *)
| FsError (path : string)
| ParseError      (* readCertificateInfo could not parse its input *)
| TypeError       (* a JavaScript TypeError *)
| SaveError.      (* api.ssl.save rejected *)

Inductive outcome (A : Type) : Type :=
| Returned (a : A)
| Threw (e : error)
| Blocked                (* waits on [renewMutex.acquire()]; the run is followed
                            no further (see [Fs.acquire]) *)
| Exited (code : Z).     (* [process.exit(code)] *)
Arguments Returned {A} a.
Arguments Threw {A} e.
Arguments Blocked {A}.
Arguments Exited {A} code.

Record Client := { accountKey : string; directoryUrl : string }.

(** The data options of a call of [client.auto]; an option that is not
    passed is [None]. *)
Record AutoArgs := {
  arg_csr : option string;
  arg_termsOfServiceAgreed : bool;
  arg_challengePriority : option (list string)
}.

(** What a computation does that the claims speak about.  [T] is the type of
    the published certificate/key pair of the variant. *)
Inductive Event (T : Type) : Type :=
| EAcquire
| ERelease
| ECreatePrivateKey (key : string)
| ENewClient (c : Client)
| ECreateCsr (commonName key : string)
| EWriteFile (path data : string)         (* fs.promises.writeFile took effect *)
| ECreateFile (name data : string)        (* api.files.createIndependentFileSmall *)
| EAuto (c : Client) (a : AutoArgs)       (* the CA is contacted *)
| ESslSave (saved : T)                    (* api.ssl.save took effect *)
| ELog (msg : string)
| ERouterReset
| ESuspend (seen : T)                     (* an [await]: what a reader scheduled now sees *)
| ESslWrite (now : T).                    (* the published pair after one write to it *)
Arguments EAcquire {T}.
Arguments ERelease {T}.
Arguments ECreatePrivateKey {T} key.
Arguments ENewClient {T} c.
Arguments ECreateCsr {T} commonName key.
Arguments EWriteFile {T} path data.
Arguments ECreateFile {T} name data.
Arguments EAuto {T} c a.
Arguments ESslSave {T} saved.
Arguments ELog {T} msg.
Arguments ERouterReset {T}.
Arguments ESuspend {T} seen.
Arguments ESslWrite {T} now.

Definition M (S T A : Type) : Type := S -> outcome A * S * list (Event T).

Section Monad.
Context {S T : Type}.

Definition ret {A} (a : A) : M S T A := fun s => (Returned a, s, []).

Definition bind {A B} (m : M S T A) (k : A -> M S T B) : M S T B :=
    fun s =>
      match m s with
      | (Returned a, s1, t1) => let '(o, s2, t2) := k a s1 in (o, s2, t1 ++ t2)
      | (Threw e, s1, t1) => (Threw e, s1, t1)
      | (Blocked, s1, t1) => (Blocked, s1, t1)
      | (Exited c, s1, t1) => (Exited c, s1, t1)
      end.

Definition throw {A} (e : error) : M S T A := fun s => (Threw e, s, []).
Definition park {A} : M S T A := fun s => (Blocked, s, []).
Definition process_exit {A} (code : Z) : M S T A := fun s => (Exited code, s, []).

Definition get : M S T S := fun s => (Returned s, s, []).
Definition gets {A} (f : S -> A) : M S T A := fun s => (Returned (f s), s, []).
Definition modify (f : S -> S) : M S T unit := fun s => (Returned tt, f s, []).
Definition tell (e : Event T) : M S T unit := fun s => (Returned tt, s, [e]).

  (** [try { m } catch (e) { h e }]: only a thrown error is caught. *)
Definition try_catch {A} (m : M S T A) (h : error -> M S T A) : M S T A :=
    fun s =>
      match m s with
      | (Threw e, s1, t1) => let '(o, s2, t2) := h e s1 in (o, s2, t1 ++ t2)
      | r => r
      end.

Definition when (b : bool) (m : M S T unit) : M S T unit :=
    if b then m else ret tt.
End Monad.

#[global] Instance M_ret {S T} : MRet (M S T) := @ret S T.
#[global] Instance M_bind {S T} : MBind (M S T) := fun A B k m => bind m k.

Definition result_of {S T A} (r : outcome A * S * list (Event T)) : outcome A := r.1.1.
Definition state_of {S T A} (r : outcome A * S * list (Event T)) : S := r.1.2.
Definition events_of {S T A} (r : outcome A * S * list (Event T)) : list (Event T) := r.2.

Definition failed {A} (o : outcome A) : bool :=
  match o with Returned _ => false | _ => true end.

(** ** The libraries both variants call

    [acme-client] and [date-fns] are external; what they compute is a
    parameter of the development.  [readCertificateInfo] gives [None] where
    the library throws (input that is not a certificate). *)

Record Duration := {
  years : Z; months : Z; days : Z; hours : Z; minutes : Z; seconds : Z
}.

Record CertInfo := {
  notAfter : Z;                     (* a Date, as milliseconds *)
  domains_commonName : string;
  issuer_commonName : option string (* [null] when the issuer has no CN *)
}.

Class Libs := {
  splitPemChain : string -> list string;
  readCertificateInfo : string -> option CertInfo;
  intervalToDuration : Z -> Z -> Duration     (* start, end *)
}.

Definition letsencrypt_staging : string :=
  "https://acme-staging-v02.api.letsencrypt.org/directory".
Definition letsencrypt_production : string :=
  "https://acme-v02.api.letsencrypt.org/directory".

Record Challenge := { token : string; type : string }.

(** One callback the ACME client makes while [auto] runs:
    [(authz, challenge, keyAuthorization)]. *)
Inductive ChallengeStep : Type :=
| CreateStep (authz : string) (challenge : Challenge) (keyAuthorization : string)
| RemoveStep (authz : string) (challenge : Challenge) (keyAuthorization : string).

(** The options object of [client.auto], callbacks included. *)
Record AutoOptions (S T : Type) := {
  csr : option string;
  termsOfServiceAgreed : bool;
  challengePriority : option (list string);
  challengeCreateFn : string -> Challenge -> string -> M S T unit;
  challengeRemoveFn : string -> Challenge -> string -> M S T unit
}.
Arguments csr {S T} _.
Arguments termsOfServiceAgreed {S T} _.
Arguments challengePriority {S T} _.
Arguments challengeCreateFn {S T} _.
Arguments challengeRemoveFn {S T} _.

Section Auto.
Context {S T : Type}.

Definition args_of (o : AutoOptions S T) : AutoArgs :=
    {| arg_csr := csr o;
       arg_termsOfServiceAgreed := termsOfServiceAgreed o;
       arg_challengePriority := challengePriority o |}.

Fixpoint run_script (o : AutoOptions S T) (steps : list ChallengeStep) : M S T unit :=
    match steps with
    | [] => mret tt
    | CreateStep a c k :: rest => challengeCreateFn o a c k;; run_script o rest
    | RemoveStep a c k :: rest => challengeRemoveFn o a c k;; run_script o rest
    end.

  (** [client.auto(options)]: the CA is contacted, the client makes its
      callbacks in the order [script] gives, and the exchange ends with the
      certificate chain or rejects. *)
Definition auto (c : Client) (script : list ChallengeStep) (result : option string)
      (o : AutoOptions S T) : M S T string :=
    tell (EAuto c (args_of o));;
    run_script o script;;
    match result with
    | Some pem => mret pem
    | None => throw AcmeError
    end.
End Auto.

(** ** What both validity checks compute

    The source writes these expressions inline, once in [check] of the
    file-system variant and once in [isSslValid] of the remote variant; they
    are named here after the local variables that hold them. *)

(** [duration.months * 30 + duration.days] *)
Definition daysLeft (duration : Duration) : Z :=
  months duration * 30 + days duration.

(** [if (daysLeft > 30) dateValid = true], from [dateValid = false]. *)
Definition dateValid (daysLeft : Z) : bool := 30 <? daysLeft.

(** [certInfo.issuer.commonName.toLowerCase().includes("staging")]; on an
    issuer without common name the call of [toLowerCase] on [null] throws,
    which is [None] here. *)
Definition issuerIsStaging (certInfo : CertInfo) : option bool :=
  (fun commonName => Js.includes "staging" (Js.toLowerCase commonName))
    <$> issuer_commonName certInfo.

(** [domainValid] after the two [if]s that assign it.  The condition of
    the second [if] is the expression above: when it throws, the checks
    throw before they read [domainValid] (see [check] and [isSslValid]). *)
Definition domainValid (isStaging : bool) (configDomain : string) (certInfo : CertInfo) : bool :=
  let domainValid := String.eqb (domains_commonName certInfo) configDomain in
  match issuerIsStaging certInfo with
  | Some issuerStaging =>
      if negb (Bool.eqb isStaging issuerStaging) then false else domainValid
  | None => false
  end.

(** ** The file-system variant ([letsencrypt]) *)

Module Fs.

(** [api.ssl.cert] and [api.ssl.privateKey]: the pair the host serves.
    A field that is [undefined] is [None]. *)
Record ActiveTls := {
  cert : option (list string);
  privateKey : option string
}.

(** The module-level variables, the disk, and what the plugin reads and
    writes of the host's [api]. *)
Record State := {
  renewMutex : bool;                       (* locked? *)
  configDir : string;
  sslKeyPath : string;
  sslCertPath : string;
  sslCert : option string;
  sslKey : option string;
  sslCsr : option string;
  client : option Client;
  acmeChallenges : gmap string string;
  dirs : gset string;
  files : gmap string string;
  api_ssl : ActiveTls;
  api_confdir : string;                    (* api.config.str("core.confdir") *)
  api_staging : bool;                      (* api.pluginConfig.bool("staging") *)
  api_domain : string                      (* api.ssl.domain *)
}.

Definition set_renewMutex (v : bool) (s : State) : State :=
  {| renewMutex := v; configDir := configDir s; sslKeyPath := sslKeyPath s;
     sslCertPath := sslCertPath s; sslCert := sslCert s; sslKey := sslKey s;
     sslCsr := sslCsr s; client := client s; acmeChallenges := acmeChallenges s;
     dirs := dirs s; files := files s; api_ssl := api_ssl s;
     api_confdir := api_confdir s; api_staging := api_staging s;
     api_domain := api_domain s |}.

Definition set_paths (d k c : string) (s : State) : State :=
  {| renewMutex := renewMutex s; configDir := d; sslKeyPath := k; sslCertPath := c;
     sslCert := sslCert s; sslKey := sslKey s; sslCsr := sslCsr s;
     client := client s; acmeChallenges := acmeChallenges s; dirs := dirs s;
     files := files s; api_ssl := api_ssl s; api_confdir := api_confdir s;
     api_staging := api_staging s; api_domain := api_domain s |}.

Definition set_sslCert (v : option string) (s : State) : State :=
  {| renewMutex := renewMutex s; configDir := configDir s;
     sslKeyPath := sslKeyPath s; sslCertPath := sslCertPath s; sslCert := v;
     sslKey := sslKey s; sslCsr := sslCsr s; client := client s;
     acmeChallenges := acmeChallenges s; dirs := dirs s; files := files s;
     api_ssl := api_ssl s; api_confdir := api_confdir s;
     api_staging := api_staging s; api_domain := api_domain s |}.

Definition set_sslKey (v : option string) (s : State) : State :=
  {| renewMutex := renewMutex s; configDir := configDir s;
     sslKeyPath := sslKeyPath s; sslCertPath := sslCertPath s; sslCert := sslCert s;
     sslKey := v; sslCsr := sslCsr s; client := client s;
     acmeChallenges := acmeChallenges s; dirs := dirs s; files := files s;
     api_ssl := api_ssl s; api_confdir := api_confdir s;
     api_staging := api_staging s; api_domain := api_domain s |}.

Definition set_sslCsr (v : option string) (s : State) : State :=
  {| renewMutex := renewMutex s; configDir := configDir s;
     sslKeyPath := sslKeyPath s; sslCertPath := sslCertPath s; sslCert := sslCert s;
     sslKey := sslKey s; sslCsr := v; client := client s;
     acmeChallenges := acmeChallenges s; dirs := dirs s; files := files s;
     api_ssl := api_ssl s; api_confdir := api_confdir s;
     api_staging := api_staging s; api_domain := api_domain s |}.

Definition set_client (v : option Client) (s : State) : State :=
  {| renewMutex := renewMutex s; configDir := configDir s;
     sslKeyPath := sslKeyPath s; sslCertPath := sslCertPath s; sslCert := sslCert s;
     sslKey := sslKey s; sslCsr := sslCsr s; client := v;
     acmeChallenges := acmeChallenges s; dirs := dirs s; files := files s;
     api_ssl := api_ssl s; api_confdir := api_confdir s;
     api_staging := api_staging s; api_domain := api_domain s |}.

Definition upd_acmeChallenges (f : gmap string string -> gmap string string) (s : State) : State :=
  {| renewMutex := renewMutex s; configDir := configDir s;
     sslKeyPath := sslKeyPath s; sslCertPath := sslCertPath s; sslCert := sslCert s;
     sslKey := sslKey s; sslCsr := sslCsr s; client := client s;
     acmeChallenges := f (acmeChallenges s); dirs := dirs s; files := files s;
     api_ssl := api_ssl s; api_confdir := api_confdir s;
     api_staging := api_staging s; api_domain := api_domain s |}.

Definition add_dir (d : string) (s : State) : State :=
  {| renewMutex := renewMutex s; configDir := configDir s;
     sslKeyPath := sslKeyPath s; sslCertPath := sslCertPath s; sslCert := sslCert s;
     sslKey := sslKey s; sslCsr := sslCsr s; client := client s;
     acmeChallenges := acmeChallenges s; dirs := {[d]} ∪ dirs s; files := files s;
     api_ssl := api_ssl s; api_confdir := api_confdir s;
     api_staging := api_staging s; api_domain := api_domain s |}.

Definition upd_files (f : gmap string string -> gmap string string) (s : State) : State :=
  {| renewMutex := renewMutex s; configDir := configDir s;
     sslKeyPath := sslKeyPath s; sslCertPath := sslCertPath s; sslCert := sslCert s;
     sslKey := sslKey s; sslCsr := sslCsr s; client := client s;
     acmeChallenges := acmeChallenges s; dirs := dirs s; files := f (files s);
     api_ssl := api_ssl s; api_confdir := api_confdir s;
     api_staging := api_staging s; api_domain := api_domain s |}.

Definition set_api_ssl (v : ActiveTls) (s : State) : State :=
  {| renewMutex := renewMutex s; configDir := configDir s;
     sslKeyPath := sslKeyPath s; sslCertPath := sslCertPath s; sslCert := sslCert s;
     sslKey := sslKey s; sslCsr := sslCsr s; client := client s;
     acmeChallenges := acmeChallenges s; dirs := dirs s; files := files s;
     api_ssl := v; api_confdir := api_confdir s; api_staging := api_staging s;
     api_domain := api_domain s |}.

(** What the collaborators answer during one invocation. *)
Record Ext := {
  now : Z;                                            (* new Date() *)
  mkdir_ok : bool;
  readFile_ok : string -> bool;
  writeFile_ok : string -> bool;
  createPrivateKey_result : option string;
  createCsr_result : string -> option (string * string);   (* [key, csr] *)
  auto_script : list ChallengeStep;
  auto_result : option string
}.

Abbreviation Ev := (Event ActiveTls).
Abbreviation Run := (M State ActiveTls).

Section Code.
Context {L : Libs}.

(** *** Primitives of the runtime *)

(** Every [await] is a point where another task may run and read the
    published pair.  The pair is recorded as it is when the awaited call
    starts; the [await]s inside an awaited function of the plugin record
    their own, and no collaborator writes to the pair. *)
Definition suspend : Run unit :=
  s ← gets api_ssl; tell (ESuspend s).
Definition await {A} (m : Run A) : Run A := suspend;; m.

(** [renewMutex.acquire()].  A free guard is taken at once.  On a held
    guard the caller waits until the holder releases, and the run is
    followed no further: it ends [Blocked], nothing of it having happened
    past this point.  Since invocations are run one after another, the
    holder of a guard found held is an invocation that has ended without
    releasing it, so that no release will come from it; the resumption of a
    waiter by the release of a holder that is still running belongs to the
    interleavings left out. *)
Definition acquire : Run unit :=
  locked ← gets renewMutex;
  if (locked : bool) then park else modify (set_renewMutex true);; tell EAcquire.

Definition release : Run unit :=
  modify (set_renewMutex false);; tell ERelease.

Definition existsSync (path : string) (s : State) : bool :=
  bool_decide (path ∈ dirs s) || bool_decide (is_Some (files s !! path)).

Definition mkdir (x : Ext) (path : string) : Run unit :=
  if mkdir_ok x then modify (add_dir path) else throw (FsError path).

Definition readFile (x : Ext) (path : string) : Run string :=
  fs ← gets files;
  match fs !! path with
  | Some data => if readFile_ok x path then mret data else throw (FsError path)
  | None => throw (FsError path)
  end.

Definition writeFile (x : Ext) (path data : string) : Run unit :=
  if writeFile_ok x path
  then modify (upd_files <[path := data]>);; tell (EWriteFile path data)
  else throw (FsError path).

(** [api.ssl.cert = v] and [api.ssl.privateKey = v] *)
Definition assign_cert (v : option (list string)) : Run unit :=
  old ← gets api_ssl;
  let new := {| cert := v; privateKey := privateKey old |} in
  modify (set_api_ssl new);; tell (ESslWrite new).

Definition assign_privateKey (v : option string) : Run unit :=
  old ← gets api_ssl;
  let new := {| cert := cert old; privateKey := v |} in
  modify (set_api_ssl new);; tell (ESslWrite new).

Definition createPrivateKey (x : Ext) : Run string :=
  match createPrivateKey_result x with
  | Some k => tell (ECreatePrivateKey k);; mret k
  | None => throw CryptoError
  end.

Definition createCsr (x : Ext) (commonName : string) : Run (string * string) :=
  match createCsr_result x commonName with
  | Some (key, csr) => tell (ECreateCsr commonName key);; mret (key, csr)
  | None => throw CryptoError
  end.

(** *** The plugin *)

Definition isSSlStaging (s : State) : bool := api_staging s.

(** The handler of [/.well-known/acme-challenge/:token]: status and body. *)
Definition challengeRoute (token : string) (s : State) : Z * option string :=
  match acmeChallenges s !! token with
  | Some keyAuthorization => (200, Some keyAuthorization)
  | None => (404, None)
  end.

Definition generateCsr (x : Ext) : Run (option string) :=
  commonName ← gets api_domain;
  '(key, csr) ← await (createCsr x commonName);
  modify (set_sslCsr (Some csr));;
  modify (set_sslKey (Some key));;
  path ← gets sslKeyPath;
  await (writeFile x path key);;
  gets sslCsr.

Definition renew_challengeCreateFn (authz : string) (challenge : Challenge)
    (keyAuthorization : string) : Run unit :=
  modify (upd_acmeChallenges <[token challenge := keyAuthorization]>).

Definition renew_challengeRemoveFn (authz : string) (challenge : Challenge)
    (keyAuthorization : string) : Run unit :=
  modify (upd_acmeChallenges (delete (token challenge))).

(** The object [renew] passes to [client.auto]; it names no
    [challengePriority]. *)
Definition renew_options (csr : option string) : AutoOptions State ActiveTls :=
  {| challengeCreateFn := renew_challengeCreateFn;
     challengeRemoveFn := renew_challengeRemoveFn;
     csr := csr;
     termsOfServiceAgreed := true;
     challengePriority := None |}.

(** The four assignments that end [renew], after the certificate file
    is written. *)
Definition install (result : string) : Run unit :=
  assign_cert None;;
  assign_privateKey None;;
  assign_cert (Some (splitPemChain result));;
  key ← gets sslKey;
  assign_privateKey key.

Definition renew (x : Ext) : Run unit :=
  await acquire;;
  cl ← gets client;
  match cl with
  | None => throw TypeError
  | Some c =>
      csr ← await (generateCsr x);
      result ← await (auto c (auto_script x) (auto_result x) (renew_options csr));
      path ← gets sslCertPath;
      await (writeFile x path result);;
      install result;;
      release
  end.

Definition check (x : Ext) : Run unit :=
  s ← get;
  if negb (Js.truthy (sslCert s)) || negb (Js.truthy (sslKey s))
  then renew x
  else
    let configDomain := api_domain s in
    certInfo ← await (match readCertificateInfo (default "" (sslCert s)) with
                      | Some i => mret i
                      | None => throw ParseError
                      end);
    let duration := intervalToDuration (now x) (notAfter certInfo) in
    match issuerIsStaging certInfo with
    | None => throw TypeError        (* null.toLowerCase() *)
    | Some _ =>
        if dateValid (daysLeft duration)
           && domainValid (isSSlStaging s) configDomain certInfo
        then mret tt
        else renew x
    end.

(** The body of [try] in [plugin]: load what the disk holds. *)
Definition load (x : Ext) : Run unit :=
  s ← get;
  when (existsSync (sslCertPath s) s)
    (data ← await (readFile x (sslCertPath s));
     modify (set_sslCert (Some data));;
     assign_cert (Some (splitPemChain data)));;
  s ← get;
  when (existsSync (sslKeyPath s) s)
    (data ← await (readFile x (sslKeyPath s));
     modify (set_sslKey (Some data));;
     assign_privateKey (Some data)).

(** [plugin(api)], up to the registration of the route and of the
    hourly [check], which run later.  The two statements that hand the
    plugin to the host ([api.config.set("core.ssl", true)] and the
    assignment of [api.ssl.renewHandler]) touch nothing modelled here. *)
Definition plugin (x : Ext) : Run unit :=
  confdir ← gets api_confdir;
  let dir := Js.path_join confdir "letsencrypt" in
  modify (set_paths dir (Js.path_join dir "ssl.key") (Js.path_join dir "ssl.cert"));;
  s ← get;
  when (negb (existsSync dir s)) (await (mkdir x dir));;
  try_catch (load x)
    (fun _ => modify (set_sslCert None);; modify (set_sslKey None));;
  key ← await (createPrivateKey x);
  staging ← gets api_staging;
  let c := {| accountKey := key;
              directoryUrl := if (staging : bool) then letsencrypt_staging
                              else letsencrypt_production |} in
  modify (set_client (Some c));; tell (ENewClient c).

End Code.
End Fs.

(** ** The remote-backend variant ([letsencrypt-ssl]) *)

Module Remote.

Definition FILE_ACCOUNT_KEY_NAME : string := "/lumeweb/relay/account.key".

(** The values the plugin passes around as certificate or key. *)
Inductive JsVal : Type :=
| VUndefined
| VTrue
| VFile (fileData : string)       (* an IndependentFileSmall *)
| VBuffer (data : string).

Definition truthy (v : JsVal) : bool :=
  match v with VUndefined => false | _ => true end.

Record SslData := { cert : JsVal; key : JsVal }.

(** What the plugin reads and writes of the host. *)
Record State := {
  ssl : option SslData;               (* the pair [api.ssl.set] published last *)
  saved : option SslData;             (* what [api.ssl.getSaved] finds *)
  files : gmap string string;         (* small files of the seed, by name *)
  routes : list (string * string);    (* [api.appRouter]: path and body sent *)
  cfg_domain : string;                (* api.config.str("domain") *)
  cfg_ssl_mode : string               (* api.config.str("ssl-mode") *)
}.

Definition set_ssl (v : option SslData) (s : State) : State :=
  {| ssl := v; saved := saved s; files := files s; routes := routes s;
     cfg_domain := cfg_domain s; cfg_ssl_mode := cfg_ssl_mode s |}.

Definition set_saved (v : option SslData) (s : State) : State :=
  {| ssl := ssl s; saved := v; files := files s; routes := routes s;
     cfg_domain := cfg_domain s; cfg_ssl_mode := cfg_ssl_mode s |}.

Definition upd_files (f : gmap string string -> gmap string string) (s : State) : State :=
  {| ssl := ssl s; saved := saved s; files := f (files s); routes := routes s;
     cfg_domain := cfg_domain s; cfg_ssl_mode := cfg_ssl_mode s |}.

Definition set_routes (v : list (string * string)) (s : State) : State :=
  {| ssl := ssl s; saved := saved s; files := files s; routes := v;
     cfg_domain := cfg_domain s; cfg_ssl_mode := cfg_ssl_mode s |}.

(** What the collaborators answer during one invocation. *)
Record Ext := {
  now : Z;
  getSaved_ok : bool;
  open_ok : string -> bool;                   (* openIndependentFileSmall gives no [err] *)
  create_ok : string -> bool;                 (* createIndependentFileSmall stores the file *)
  createPrivateKey_result : option string;
  createCsr_result : string -> option (string * string);
  auto_script : list ChallengeStep;
  auto_result : option string;
  save_ok : bool;
  reset_routes : list (string * string) -> list (string * string)
                                              (* the routes [appRouter.reset()] leaves *)
}.

Abbreviation Ev := (Event (option SslData)).
Abbreviation Run := (M State (option SslData)).

Section Code.
Context {L : Libs}.

(** *** The host's interface *)

Definition suspend : Run unit :=
  s ← gets ssl; tell (ESuspend s).
Definition await {A} (m : Run A) : Run A := suspend;; m.

(** [api.ssl.set(cert, key)] *)
Definition ssl_set (c k : JsVal) : Run unit :=
  let new := Some {| cert := c; key := k |} in
  modify (set_ssl new);; tell (ESslWrite new).

(** [api.ssl.save()] persists the published pair, each part as a small
    file, or rejects. *)
Definition as_file (v : JsVal) : JsVal :=
  match v with
  | VBuffer data => VFile data
  | other => other
  end.

Definition ssl_save (x : Ext) : Run unit :=
  if save_ok x
  then
    cur ← gets ssl;
    let stored := (fun d => {| cert := as_file (cert d); key := as_file (key d) |}) <$> cur in
    modify (set_saved stored);; tell (ESslSave stored)
  else throw SaveError.

(** [api.ssl.getSaved(boot)]: the saved pair, or [false]. *)
Definition ssl_getSaved (x : Ext) (boot : bool) : Run (option SslData) :=
  if getSaved_ok x then gets saved else mret None.

(** [api.files.openIndependentFileSmall(seed, name)]: [[file, err]]. *)
Definition openIndependentFileSmall (x : Ext) (name : string) : Run (option string) :=
  fs ← gets files;
  mret (if open_ok x name then fs !! name else None).

(** [api.files.createIndependentFileSmall(seed, name, data)]; the plugin
    does not look at what it answers. *)
Definition createIndependentFileSmall (x : Ext) (name data : string) : Run unit :=
  if create_ok x name
  then modify (upd_files <[name := data]>);; tell (ECreateFile name data)
  else mret tt.

(** [api.appRouter.get().get(path, handler)], the handler sending [body]. *)
Definition appRouter_get (path body : string) : Run unit :=
  rs ← gets routes; modify (set_routes (rs ++ [(path, body)])).

(** [api.appRouter.reset()].  The host's router is not part of this
    repository: what [reset] leaves of the registered routes is the
    collaborator's answer [reset_routes]. *)
Definition appRouter_reset (x : Ext) : Run unit :=
  rs ← gets routes; modify (set_routes (reset_routes x rs));; tell ERouterReset.

Definition createPrivateKey (x : Ext) : Run string :=
  match createPrivateKey_result x with
  | Some k => tell (ECreatePrivateKey k);; mret k
  | None => throw CryptoError
  end.

Definition createCsr (x : Ext) (commonName : string) : Run (string * string) :=
  match createCsr_result x commonName with
  | Some (key, csr) => tell (ECreateCsr commonName key);; mret (key, csr)
  | None => throw CryptoError
  end.

(** *** The plugin *)

Definition isSSlStaging (s : State) : bool :=
  String.eqb (cfg_ssl_mode s) "staging".

Definition getSslFile (x : Ext) (name : string) : Run (option string) :=
  await (openIndependentFileSmall x name).

Definition isSslValid (x : Ext) (boot : bool) : Run (SslData * bool) :=
  sslData ← await (ssl_getSaved x boot);
  configDomain ← gets cfg_domain;
  match sslData with
  | Some d =>
      certInfo ← await (match cert d with
                        | VFile fileData =>
                            match readCertificateInfo fileData with
                            | Some i => mret i
                            | None => throw ParseError
                            end
                        | _ => throw TypeError       (* Buffer.from(undefined) *)
                        end);
      let duration := intervalToDuration (now x) (notAfter certInfo) in
      s ← get;
      match issuerIsStaging certInfo with
      | None => throw TypeError      (* null.toLowerCase() *)
      | Some _ =>
          if dateValid (daysLeft duration)
             && domainValid (isSSlStaging s) configDomain certInfo
          then mret (d, false)
          else mret (d, true)
      end
  | None => mret ({| cert := VTrue; key := VTrue |}, true)
  end.

Definition createOrRenewSSl_challengeCreateFn (authz : string) (challenge : Challenge)
    (keyAuthorization : string) : Run unit :=
  appRouter_get ("/.well-known/acme-challenge/" +:+ token challenge) keyAuthorization.

Definition createOrRenewSSl_challengeRemoveFn (x : Ext) (authz : string)
    (challenge : Challenge) (keyAuthorization : string) : Run unit :=
  appRouter_reset x.

(** The object [createOrRenewSSl] passes to [acmeClient.auto]. *)
Definition createOrRenewSSl_options (x : Ext) (certificateRequest : string)
    : AutoOptions State (option SslData) :=
  {| csr := Some certificateRequest;
     termsOfServiceAgreed := true;
     challengeCreateFn := createOrRenewSSl_challengeCreateFn;
     challengeRemoveFn := createOrRenewSSl_challengeRemoveFn x;
     challengePriority := Some ["http-01"] |}.

Definition createOrRenewSSl (x : Ext) (oldCert oldKey : JsVal) : Run unit :=
  let existing := truthy oldCert && truthy oldKey in
  domain ← gets cfg_domain;
  tell (ELog ((if existing then "Renewing" else "Creating")
              +:+ " SSL Certificate for " +:+ domain));;
  file ← await (getSslFile x FILE_ACCOUNT_KEY_NAME);
  accountKey ← match file with
               | Some fileData => mret fileData
               | None =>
                   k ← await (createPrivateKey x);
                   await (createIndependentFileSmall x FILE_ACCOUNT_KEY_NAME k);;
                   mret k
               end;
  s ← get;
  let acmeClient := {| accountKey := accountKey;
                       directoryUrl := if isSSlStaging s then letsencrypt_staging
                                       else letsencrypt_production |} in
  tell (ENewClient acmeClient);;
  '(certificateKey, certificateRequest) ← await (createCsr x domain);
  cert ← try_catch
            (await (auto acmeClient (auto_script x) (auto_result x)
                      (createOrRenewSSl_options x certificateRequest)))
            (fun e => tell (ELog "console.error");; process_exit 1);
  ssl_set (VBuffer cert) (VBuffer certificateKey);;
  await (ssl_save x).

Definition check (x : Ext) (boot : bool) : Run unit :=
  '(sslData, error) ← await (isSslValid x boot);
  if negb error
  then
    ssl_set (cert sslData) (key sslData);;
    domain ← gets cfg_domain;
    when boot (tell (ELog ("Loaded SSL Certificate for " +:+ domain)))
  else await (createOrRenewSSl x (cert sslData) (key sslData)).

Definition bootup (x : Ext) : Run unit := check x true.

End Code.
End Remote.

(** ** Reading a trace *)

Section Trace.
Context {T : Type}.

(** What a reader saw at the [await]s, in order. *)
Definition suspensions (evs : list (Event T)) : list T :=
  omap (fun e => match e with ESuspend t => Some t | _ => None end) evs.

(** The successive values of the published pair, one per write. *)
Definition writes (evs : list (Event T)) : list T :=
  omap (fun e => match e with ESslWrite t => Some t | _ => None end) evs.

(** The calls of [client.auto]. *)
Definition autos (evs : list (Event T)) : list (Client * AutoArgs) :=
  omap (fun e => match e with EAuto c a => Some (c, a) | _ => None end) evs.

(** The keys [createPrivateKey] generated. *)
Definition generated (evs : list (Event T)) : list string :=
  omap (fun e => match e with ECreatePrivateKey k => Some k | _ => None end) evs.

(** The account keys of the clients built. *)
Definition clients (evs : list (Event T)) : list Client :=
  omap (fun e => match e with ENewClient c => Some c | _ => None end) evs.


(** [data] is written to the file [path]. *)
Definition stores_at (path data : string) (e : Event T) : bool :=
  match e with
  | EWriteFile p d | ECreateFile p d => String.eqb p path && String.eqb d data
  | _ => false
  end.


(** An event that puts something in a file or in the host's store. *)
Definition is_store (e : Event T) : bool :=
  match e with
  | EWriteFile _ _ | ECreateFile _ _ | ESslSave _ => true
  | _ => false
  end.

(** The storing events that lie between the generation of a CSR (and of
    its key) and the next call of [client.auto]; [armed] says whether a CSR
    was generated and not yet sent. *)
Fixpoint stored_for_csr (armed : bool) (evs : list (Event T)) : list (Event T) :=
  match evs with
  | [] => []
  | ECreateCsr _ _ :: rest => stored_for_csr true rest
  | EAuto _ _ :: rest => stored_for_csr false rest
  | e :: rest =>
      (if armed && is_store e then [e] else []) ++ stored_for_csr armed rest
  end.

(** What [api.ssl.save] stored, one entry per save. *)
Definition saves (evs : list (Event T)) : list T :=
  omap (fun e => match e with ESslSave t => Some t | _ => None end) evs.

(** Every call of [client.auto] comes after an event that [persists];
    [seen] says whether one has occurred already. *)
Fixpoint before_auto (persists : Event T -> bool) (seen : bool) (evs : list (Event T)) : bool :=
  match evs with
  | [] => true
  | EAuto _ _ :: rest => seen && before_auto persists seen rest
  | e :: rest => before_auto persists (seen || persists e) rest
  end.

End Trace.

(** ** Sample data

    A toy certificate library and calendar, and a few concrete processes and
    collaborators, on which the theorems below are instantiated. *)

Module Sample.

(** Four certificates are known by name, the last one issued by a CA whose
    name has no CN; anything else does not parse. *)
Definition toy_readCertificateInfo (pem : string) : option CertInfo :=
  if String.eqb pem "CERT-PROD" then
    Some {| notAfter := 90; domains_commonName := "example.test";
            issuer_commonName := Some "R3" |}
  else if String.eqb pem "CERT-STAGING" then
    Some {| notAfter := 90; domains_commonName := "example.test";
            issuer_commonName := Some "(STAGING) Artificial Apricot R3" |}
  else if String.eqb pem "CERT-OTHER" then
    Some {| notAfter := 90; domains_commonName := "other.test";
            issuer_commonName := Some "R3" |}
  else if String.eqb pem "CERT-NO-ISSUER-CN" then
    Some {| notAfter := 90; domains_commonName := "example.test";
            issuer_commonName := None |}
  else None.

(** Dates are day numbers and every month has thirty days. *)
Definition toy_intervalToDuration (start finish : Z) : Duration :=
  let d := Z.abs (finish - start) in
  {| years := d / 360; months := (d mod 360) / 30; days := d mod 30;
     hours := 0; minutes := 0; seconds := 0 |}.

Definition toy : Libs :=
  {| splitPemChain := fun pem => [pem];
     readCertificateInfo := toy_readCertificateInfo;
     intervalToDuration := toy_intervalToDuration |}.

Definition http01 (tok : string) : Challenge := {| token := tok; type := "http-01" |}.

Definition script : list ChallengeStep :=
  [CreateStep "example.test" (http01 "tok") "tok.thumb";
   RemoveStep "example.test" (http01 "tok") "tok.thumb"].

(** *** File-system variant *)

(** A process that has just started on an empty disk. *)
Definition fs_boot : Fs.State :=
  {| Fs.renewMutex := false; Fs.configDir := ""; Fs.sslKeyPath := ""; Fs.sslCertPath := "";
     Fs.sslCert := None; Fs.sslKey := None; Fs.sslCsr := None; Fs.client := None;
     Fs.acmeChallenges := ∅; Fs.dirs := ∅; Fs.files := ∅;
     Fs.api_ssl := {| Fs.cert := None; Fs.privateKey := None |};
     Fs.api_confdir := "/etc/relay"; Fs.api_staging := false;
     Fs.api_domain := "example.test" |}.

(** A later start of the process on the disk [s] left. *)
Definition fs_restart (s : Fs.State) : Fs.State :=
  {| Fs.renewMutex := false; Fs.configDir := ""; Fs.sslKeyPath := ""; Fs.sslCertPath := "";
     Fs.sslCert := None; Fs.sslKey := None; Fs.sslCsr := None; Fs.client := None;
     Fs.acmeChallenges := ∅; Fs.dirs := Fs.dirs s; Fs.files := Fs.files s;
     Fs.api_ssl := {| Fs.cert := None; Fs.privateKey := None |};
     Fs.api_confdir := Fs.api_confdir s; Fs.api_staging := Fs.api_staging s;
     Fs.api_domain := Fs.api_domain s |}.

(** Everything works; the CA issues [pem]; the generators give the keys
    numbered [n]. *)
Definition fs_ok (n : string) (pem : string) : Fs.Ext :=
  {| Fs.now := 0; Fs.mkdir_ok := true;
     Fs.readFile_ok := fun _ => true; Fs.writeFile_ok := fun _ => true;
     Fs.createPrivateKey_result := Some ("ACCOUNT-" +:+ n);
     Fs.createCsr_result := fun _ => Some ("KEY-" +:+ n, "CSR-" +:+ n);
     Fs.auto_script := script;
     Fs.auto_result := Some pem |}.

(** The CA cannot be reached. *)
Definition fs_ca_down (n : string) : Fs.Ext :=
  {| Fs.now := 0; Fs.mkdir_ok := true;
     Fs.readFile_ok := fun _ => true; Fs.writeFile_ok := fun _ => true;
     Fs.createPrivateKey_result := Some ("ACCOUNT-" +:+ n);
     Fs.createCsr_result := fun _ => Some ("KEY-" +:+ n, "CSR-" +:+ n);
     Fs.auto_script := [];
     Fs.auto_result := None |}.

(** After [plugin] on an empty disk, and after a first renewal. *)
Definition fs_ready : Fs.State := state_of (Fs.plugin (L := toy) (fs_ok "1" "CERT-PROD") fs_boot).
Definition fs_served : Fs.State := state_of (Fs.renew (L := toy) (fs_ok "1" "CERT-PROD") fs_ready).

(** A process whose disk holds a key and something that is no certificate. *)
Definition fs_corrupt : Fs.State :=
  state_of (Fs.plugin (L := toy) (fs_ok "2" "CERT-PROD")
              (fs_restart (Fs.upd_files <["/etc/relay/letsencrypt/ssl.cert" := "garbage"]> fs_served))).

(** *** Remote variant *)

Definition rm_old : Remote.SslData :=
  {| Remote.cert := Remote.VFile "CERT-PROD"; Remote.key := Remote.VFile "KEY-0" |}.

(** A host that serves [active], has [stored] saved, and has a route of
    its own. *)
Definition rm_state (active stored : option Remote.SslData) (mode : string) : Remote.State :=
  {| Remote.ssl := active; Remote.saved := stored; Remote.files := ∅;
     Remote.routes := [("/status", "ok")];
     Remote.cfg_domain := "example.test"; Remote.cfg_ssl_mode := mode |}.

Definition rm_ext (n : string) (ca : option string) (save : bool) : Remote.Ext :=
  {| Remote.now := 0; Remote.getSaved_ok := true;
     Remote.open_ok := fun _ => true; Remote.create_ok := fun _ => true;
     Remote.createPrivateKey_result := Some ("ACCOUNT-" +:+ n);
     Remote.createCsr_result := fun _ => Some ("KEY-" +:+ n, "CSR-" +:+ n);
     Remote.auto_script := script;
     Remote.auto_result := ca;
     Remote.save_ok := save;
     Remote.reset_routes := fun _ => [] |}.

(** The same, on day [day] of the toy calendar. *)
Definition rm_on (day : Z) : Remote.Ext :=
  {| Remote.now := day; Remote.getSaved_ok := true;
     Remote.open_ok := fun _ => true; Remote.create_ok := fun _ => true;
     Remote.createPrivateKey_result := Some "ACCOUNT-1";
     Remote.createCsr_result := fun _ => Some ("KEY-1", "CSR-1");
     Remote.auto_script := script;
     Remote.auto_result := Some "CERT-PROD";
     Remote.save_ok := true;
     Remote.reset_routes := fun _ => [] |}.

Definition rm_staging : Remote.SslData :=
  {| Remote.cert := Remote.VFile "CERT-STAGING"; Remote.key := Remote.VFile "KEY-0" |}.

Definition rm_no_issuer_cn : Remote.SslData :=
  {| Remote.cert := Remote.VFile "CERT-NO-ISSUER-CN"; Remote.key := Remote.VFile "KEY-0" |}.

Definition rm_garbage : Remote.SslData :=
  {| Remote.cert := Remote.VFile "garbage"; Remote.key := Remote.VFile "KEY-0" |}.

End Sample.

(** * Proofs *)

Example toLowerCase_STAGING :
  Js.toLowerCase "Fake LE (STAGING) Intermediate X1" = "fake le (staging) intermediate x1".
Proof. reflexivity. Qed.

Example includes_staging :
  Js.includes "staging" "fake le (staging) intermediate x1" = true
  /\ Js.includes "staging" "r3" = false
  /\ Js.includes "staging" "stagin" = false.
Proof. repeat split; reflexivity. Qed.

(** ** Facts about the file-system variant *)

Module FsFacts.
Import Fs.

(** Unfold the monad and the runtime primitives. *)
Ltac unfold_run :=
  unfold await, suspend, acquire, release, createCsr, createPrivateKey, writeFile,
    readFile, mkdir, assign_cert, assign_privateKey, auto, when, try_catch,
    mbind, mret, M_bind, M_ret, bind, ret, gets, get, tell, modify, throw, park in *.

(** What the callbacks of a whole script do to [acmeChallenges]. *)
Fixpoint script_effect (steps : list ChallengeStep) (m : gmap string string)
    : gmap string string :=
  match steps with
  | [] => m
  | CreateStep _ c k :: rest => script_effect rest (<[token c := k]> m)
  | RemoveStep _ c _ :: rest => script_effect rest (delete (token c) m)
  end.

Lemma run_script_renew csr steps s :
  run_script (renew_options csr) steps s
  = (Returned tt, upd_acmeChallenges (script_effect steps) s, []).
Proof.
  revert s. induction steps as [|[a c k|a c k] rest IH]; intros s; cbn.
  - by destruct s.
  - unfold mbind, M_bind, bind; cbn. rewrite IH. by destruct s.
  - unfold mbind, M_bind, bind; cbn. rewrite IH. by destruct s.
Qed.

Section Renew.
Context {L : Libs}.

(** The cases of one run of [renew], in the order the code meets them. *)
Ltac renew_cases x s :=
  unfold renew, generateCsr, install; unfold_run; cbn;
  destruct (renewMutex s) eqn:Hlocked; cbn;
  [ | destruct (client s) as [c|] eqn:Hclient; cbn;
      [ destruct (createCsr_result x (api_domain s)) as [[key csr]|] eqn:Hcsr; cbn;
        [ destruct (writeFile_ok x (sslKeyPath s)) eqn:Hwkey; cbn;
          [ rewrite run_script_renew; cbn;
            destruct (auto_result x) as [pem|] eqn:Hauto; cbn;
            [ destruct (writeFile_ok x (sslCertPath s)) eqn:Hwcert; cbn | ]
          | ]
        | ]
      | ]
  ].

Lemma renew_failed_frame x s :
  failed (result_of (renew x s)) = true ->
  api_ssl (state_of (renew x s)) = api_ssl s.
Proof. renew_cases x s; done. Qed.

Lemma renew_blocked x s :
  renewMutex s = true -> renew x s = (Blocked, s, [ESuspend (api_ssl s)]).
Proof. intros H. renew_cases x s; done. Qed.

Lemma renew_returned_unlocked x s :
  result_of (renew x s) = Returned tt -> renewMutex (state_of (renew x s)) = false.
Proof. renew_cases x s; done. Qed.

Lemma renew_threw_locked x s e :
  result_of (renew x s) = Threw e -> renewMutex (state_of (renew x s)) = true.
Proof. renew_cases x s; done. Qed.

Lemma renew_suspensions x s :
  Forall (eq (api_ssl s)) (suspensions (events_of (renew x s))).
Proof. renew_cases x s; repeat constructor. Qed.


(** What [renew] writes to the published pair: nothing when it fails, and
    when it returns the four assignments of [install]. *)
Lemma renew_writes x s :
  match result_of (renew x s) with
  | Returned _ =>
      exists pem key csr,
        auto_result x = Some pem /\ createCsr_result x (api_domain s) = Some (key, csr) /\
        writes (events_of (renew x s)) =
          [ {| cert := None; privateKey := privateKey (api_ssl s) |};
            {| cert := None; privateKey := None |};
            {| cert := Some (splitPemChain pem); privateKey := None |};
            {| cert := Some (splitPemChain pem); privateKey := Some key |} ] /\
        api_ssl (state_of (renew x s)) =
          {| cert := Some (splitPemChain pem); privateKey := Some key |}
  | _ => writes (events_of (renew x s)) = [] /\ api_ssl (state_of (renew x s)) = api_ssl s
  end.
Proof. renew_cases x s; try done. by exists pem, key, csr. Qed.

Lemma renew_autos x s :
  Forall (fun ca => arg_termsOfServiceAgreed ca.2 = true /\ arg_challengePriority ca.2 = None)
    (autos (events_of (renew x s))).
Proof. renew_cases x s; repeat constructor. Qed.


Lemma renew_keeps_client x s :
  client (state_of (renew x s)) = client s
  /\ generated (events_of (renew x s)) = []
  /\ Forall (fun ca => client s = Some ca.1) (autos (events_of (renew x s))).
Proof. renew_cases x s; repeat split; repeat constructor; done. Qed.

End Renew.

Section Plugin.
Context {L : Libs}.

Ltac plugin_cases :=
  unfold plugin, load, existsSync; unfold_run; cbn;
  repeat (case_match; cbn in *; simplify_eq; try done).

(** Each start of the plugin generates the account key it uses, and writes
    no file. *)
Lemma plugin_account_key x s :
  result_of (plugin x s) = Returned tt ->
  exists k url,
    createPrivateKey_result x = Some k /\
    client (state_of (plugin x s)) = Some {| accountKey := k; directoryUrl := url |} /\
    generated (events_of (plugin x s)) = [k] /\
    files (state_of (plugin x s)) = files s.
Proof. plugin_cases; intros _; eexists _, _; done. Qed.

End Plugin.

Section Check.
Context {L : Libs}.

Lemma check_missing x s :
  Js.truthy (sslCert s) && Js.truthy (sslKey s) = false ->
  check x s = renew x s.
Proof.
  intros H. unfold check at 1. unfold_run. cbn.
  destruct (Js.truthy (sslCert s)), (Js.truthy (sslKey s)); try done; cbn;
    destruct (renew x s) as [[[]]]; cbn; by rewrite ?app_nil_r.
Qed.

Lemma check_unparsable x s pem :
  sslCert s = Some pem -> Js.truthy (sslCert s) && Js.truthy (sslKey s) = true ->
  readCertificateInfo pem = None ->
  check x s = (Threw ParseError, s, [ESuspend (api_ssl s)]).
Proof.
  intros Hc [H1 H2]%andb_prop Hp. unfold check. unfold_run. cbn.
  rewrite H1, H2, Hc; cbn. by rewrite Hp.
Qed.

Lemma check_parsed x s pem certInfo :
  sslCert s = Some pem -> Js.truthy (sslCert s) && Js.truthy (sslKey s) = true ->
  readCertificateInfo pem = Some certInfo ->
  check x s =
    match issuerIsStaging certInfo with
    | None => (Threw TypeError, s, [ESuspend (api_ssl s)])
    | Some _ =>
        if dateValid (daysLeft (intervalToDuration (now x) (notAfter certInfo)))
           && domainValid (isSSlStaging s) (api_domain s) certInfo
        then (Returned tt, s, [ESuspend (api_ssl s)])
        else await (renew x) s
    end.
Proof.
  intros Hc [H1 H2]%andb_prop Hp. unfold check. unfold_run. cbn.
  rewrite H1, H2, Hc; cbn. rewrite Hp; cbn.
  destruct (issuerIsStaging certInfo); cbn; [|done].
  destruct (dateValid _ && domainValid _ _ _); cbn; [done|].
  destruct (renew x s) as [[[]]]; cbn; done.
Qed.

End Check.
End FsFacts.

(** ** Facts about the remote variant *)

Module RemoteFacts.
Import Remote.

Ltac unfold_run :=
  unfold getSslFile, await, suspend, ssl_set, ssl_save, ssl_getSaved,
    openIndependentFileSmall, createIndependentFileSmall, appRouter_get, appRouter_reset,
    createCsr, createPrivateKey, auto, when, try_catch, process_exit,
    mbind, mret, M_bind, M_ret, bind, ret, gets, get, tell, modify, throw, park in *.

(** What the callbacks of a whole script do to the router, and the events
    they leave. *)
Fixpoint script_routes (reset : list (string * string) -> list (string * string))
    (steps : list ChallengeStep) (rs : list (string * string)) : list (string * string) :=
  match steps with
  | [] => rs
  | CreateStep _ c k :: rest =>
      script_routes reset rest (rs ++ [("/.well-known/acme-challenge/" +:+ token c, k)])
  | RemoveStep _ _ _ :: rest => script_routes reset rest (reset rs)
  end.

Fixpoint script_events (steps : list ChallengeStep) : list Ev :=
  match steps with
  | [] => []
  | CreateStep _ _ _ :: rest => script_events rest
  | RemoveStep _ _ _ :: rest => ERouterReset :: script_events rest
  end.

Lemma run_script_createOrRenewSSl x csr steps s :
  run_script (createOrRenewSSl_options x csr) steps s
  = (Returned tt, set_routes (script_routes (reset_routes x) steps (routes s)) s,
     script_events steps).
Proof.
  revert s. induction steps as [|[a c k|a c k] rest IH]; intros s; cbn.
  - by destruct s.
  - unfold createOrRenewSSl_challengeCreateFn. unfold_run; cbn. rewrite IH. by destruct s.
  - unfold createOrRenewSSl_challengeRemoveFn. unfold_run; cbn. rewrite IH. by destruct s.
Qed.

Lemma omap_script_events {B} (f : Ev -> option B) steps :
  f ERouterReset = None -> omap f (script_events steps) = [].
Proof. intros H. induction steps as [|[]]; cbn; rewrite ?H; done. Qed.

Lemma before_auto_script_events (p : Ev -> bool) seen steps rest :
  (forall e, e = ERouterReset -> p e = false) ->
  before_auto p seen (script_events steps ++ rest) = before_auto p seen rest.
Proof.
  intros Hp. induction steps as [|[]]; cbn; try done.
  rewrite Hp by done. by rewrite orb_false_r.
Qed.


Ltac quiet :=
  unfold autos, writes, suspensions, generated, clients, saves in *; cbn;
  rewrite ?omap_app, ?omap_script_events, ?before_auto_script_events by done; cbn.

(** The cases of one run of [createOrRenewSSl], in the order the code
    meets them. *)
Ltac renew_cases x s :=
  unfold createOrRenewSSl; unfold_run; cbn;
  destruct (open_ok x FILE_ACCOUNT_KEY_NAME) eqn:Hopen; cbn;
  [ destruct (files s !! FILE_ACCOUNT_KEY_NAME) as [stored|] eqn:Hfile; cbn | ];
  [ | destruct (createPrivateKey_result x) as [fresh|] eqn:Hgen; cbn;
      [ destruct (create_ok x FILE_ACCOUNT_KEY_NAME) eqn:Hcreate; cbn | ]
    | destruct (createPrivateKey_result x) as [fresh|] eqn:Hgen; cbn;
      [ destruct (create_ok x FILE_ACCOUNT_KEY_NAME) eqn:Hcreate; cbn | ] ];
  try (destruct (createCsr_result x (cfg_domain s)) as [[key csr]|] eqn:Hcsr; cbn;
       [ rewrite run_script_createOrRenewSSl; cbn;
         destruct (auto_result x) as [pem|] eqn:Hauto; cbn;
         [ destruct (save_ok x) eqn:Hsave; cbn | ]
       | ]).

Lemma createOrRenewSSl_failed x oldCert oldKey s :
  failed (result_of (createOrRenewSSl x oldCert oldKey s)) = true ->
  ssl (state_of (createOrRenewSSl x oldCert oldKey s)) = ssl s
  \/ exists pem key csr,
       auto_result x = Some pem /\ createCsr_result x (cfg_domain s) = Some (key, csr) /\
       result_of (createOrRenewSSl x oldCert oldKey s) = Threw SaveError /\
       ssl (state_of (createOrRenewSSl x oldCert oldKey s))
         = Some {| cert := VBuffer pem; key := VBuffer key |}.
Proof.
  renew_cases x s; intros Hf; try done; try (by left);
    right; exists pem, key, csr; done.
Qed.

Lemma createOrRenewSSl_autos x oldCert oldKey s :
  Forall (fun ca => arg_termsOfServiceAgreed ca.2 = true
                    /\ arg_challengePriority ca.2 = Some ["http-01"])
    (autos (events_of (createOrRenewSSl x oldCert oldKey s))).
Proof. renew_cases x s; quiet; repeat constructor. Qed.



(** The stored account key is used when it can be opened, and then none is
    generated and no file is written. *)
Lemma createOrRenewSSl_reuses_account_key x oldCert oldKey s accountKey0 :
  open_ok x FILE_ACCOUNT_KEY_NAME = true ->
  files s !! FILE_ACCOUNT_KEY_NAME = Some accountKey0 ->
  generated (events_of (createOrRenewSSl x oldCert oldKey s)) = []
  /\ clients (events_of (createOrRenewSSl x oldCert oldKey s))
      = [ {| accountKey := accountKey0;
             directoryUrl := if isSSlStaging s then letsencrypt_staging
                             else letsencrypt_production |} ]
  /\ Forall (fun ca => accountKey ca.1 = accountKey0)
       (autos (events_of (createOrRenewSSl x oldCert oldKey s)))
  /\ files (state_of (createOrRenewSSl x oldCert oldKey s)) = files s.
Proof.
  intros Ho Hf. renew_cases x s; simplify_eq; quiet; repeat split; repeat constructor.
Qed.

(** Otherwise a key is generated and written under the fixed name before
    the client is built. *)
Lemma createOrRenewSSl_creates_account_key x oldCert oldKey s c :
  (if open_ok x FILE_ACCOUNT_KEY_NAME then files s !! FILE_ACCOUNT_KEY_NAME else None) = None ->
  c ∈ clients (events_of (createOrRenewSSl x oldCert oldKey s)) ->
  generated (events_of (createOrRenewSSl x oldCert oldKey s)) = [accountKey c]
  /\ Forall (fun ca => ca.1 = c) (autos (events_of (createOrRenewSSl x oldCert oldKey s)))
  /\ (create_ok x FILE_ACCOUNT_KEY_NAME = true ->
      files (state_of (createOrRenewSSl x oldCert oldKey s)) !! FILE_ACCOUNT_KEY_NAME
        = Some (accountKey c)).
Proof.
  intros Ho. renew_cases x s; simplify_eq; quiet;
    intros Hc; try (by apply elem_of_nil in Hc);
    apply list_elem_of_singleton in Hc as ->; cbn;
    repeat split; repeat constructor; try done;
    intros _; by rewrite lookup_insert_eq.
Qed.

(** The remove callback resets the router, whatever it is called with. *)
Lemma challengeRemoveFn_resets x authz challenge keyAuthorization s :
  createOrRenewSSl_challengeRemoveFn x authz challenge keyAuthorization s
  = (Returned tt, set_routes (reset_routes x (routes s)) s, [ERouterReset]).
Proof. done. Qed.

Section Check.
Context {L : Libs}.

Lemma isSslValid_missing x boot s :
  (if getSaved_ok x then saved s else None) = None ->
  isSslValid x boot s
  = (Returned ({| cert := VTrue; key := VTrue |}, true), s, [ESuspend (ssl s)]).
Proof.
  intros H. unfold isSslValid; unfold_run; cbn.
  destruct (getSaved_ok x); cbn; [rewrite H|]; done.
Qed.

Lemma isSslValid_unparsable x boot s d fileData :
  getSaved_ok x = true -> saved s = Some d -> cert d = VFile fileData ->
  readCertificateInfo fileData = None ->
  isSslValid x boot s = (Threw ParseError, s, [ESuspend (ssl s); ESuspend (ssl s)]).
Proof.
  intros Hg Hs Hc Hp. unfold isSslValid; unfold_run; cbn.
  rewrite Hg; cbn. rewrite Hs; cbn. rewrite Hc, Hp; cbn. done.
Qed.

Lemma isSslValid_parsed x boot s d fileData certInfo :
  getSaved_ok x = true -> saved s = Some d -> cert d = VFile fileData ->
  readCertificateInfo fileData = Some certInfo ->
  isSslValid x boot s
  = (match issuerIsStaging certInfo with
     | None => Threw TypeError
     | Some _ =>
         Returned (d, negb (dateValid (daysLeft (intervalToDuration (now x)
                                                   (notAfter certInfo)))
                           && domainValid (isSSlStaging s) (cfg_domain s) certInfo))
     end,
     s, [ESuspend (ssl s); ESuspend (ssl s)]).
Proof.
  intros Hg Hs Hc Hp. unfold isSslValid; unfold_run; cbn.
  rewrite Hg; cbn. rewrite Hs; cbn. rewrite Hc, Hp; cbn.
  destruct (issuerIsStaging certInfo); cbn; [|done].
  by destruct (dateValid _ && domainValid _ _ _).
Qed.

(** [check] passes on what [isSslValid] raises, and renews when it asks to. *)
Lemma check_of_isSslValid x boot s :
  check x boot s =
    match isSslValid x boot s with
    | (Returned (sslData, true), s1, t1) =>
        let '(o, s2, t2) := createOrRenewSSl x (cert sslData) (key sslData) s1 in
        (o, s2, ESuspend (ssl s) :: t1 ++ ESuspend (ssl s1) :: t2)
    | (Returned (sslData, false), s1, t1) =>
        let new := Some {| cert := cert sslData; key := key sslData |} in
        (Returned tt, set_ssl new s1,
         ESuspend (ssl s) :: t1 ++ ESslWrite new ::
           (if boot then [ELog ("Loaded SSL Certificate for " +:+ cfg_domain s1)] else []))
    | (Threw e, s1, t1) => (Threw e, s1, ESuspend (ssl s) :: t1)
    | (Blocked, s1, t1) => (Blocked, s1, ESuspend (ssl s) :: t1)
    | (Exited c, s1, t1) => (Exited c, s1, ESuspend (ssl s) :: t1)
    end.
Proof.
  unfold check; unfold_run; cbn.
  destruct (isSslValid x boot s) as [[[[sslData []]| | |] s1] t1]; cbn; try done.
  - by destruct (createOrRenewSSl _ _ _ _) as [[]].
  - by destruct boot.
Qed.

End Check.
End RemoteFacts.

(** ** The renewal guard *)

Example renew_after_success_can_acquire :
  let r := Fs.renew (L := Sample.toy) (Sample.fs_ok "2" "CERT-PROD") Sample.fs_served in
  result_of r = Returned tt /\ Fs.renewMutex (state_of r) = false.
Proof. vm_compute. done. Qed.

(** C1 (the code departs from the claim).  The claim wants [renewMutex]
    released on every exit of [renew].  The code releases it on the last
    line only: a run that returns leaves the guard free, but a run that
    throws (at the CSR, at a file write, in the ACME exchange) leaves it
    locked, and every later [renew] then parks on [acquire] without reaching
    the CA. *)
Theorem C1_renew_that_throws_keeps_guard_locked {L : Libs} (x : Fs.Ext) (s : Fs.State) (e : error) :
  result_of (Fs.renew x s) = Threw e ->
  Fs.renewMutex (state_of (Fs.renew x s)) = true
  /\ forall x', result_of (Fs.renew x' (state_of (Fs.renew x s))) = Blocked
                /\ autos (events_of (Fs.renew x' (state_of (Fs.renew x s)))) = [].
Proof.
  intros H. pose proof (FsFacts.renew_threw_locked x s e H) as Hl.
  split; [done|]. intros x'. by rewrite (FsFacts.renew_blocked x' _ Hl).
Qed.

Lemma C1_witness :
  result_of (Fs.renew (L := Sample.toy) (Sample.fs_ca_down "2") Sample.fs_served) = Threw AcmeError
  /\ Fs.renewMutex (state_of (Fs.renew (L := Sample.toy) (Sample.fs_ca_down "2") Sample.fs_served)) = true
  /\ forall x',
       result_of (Fs.renew (L := Sample.toy) x'
                    (state_of (Fs.renew (L := Sample.toy) (Sample.fs_ca_down "2") Sample.fs_served)))
         = Blocked
       /\ autos (events_of (Fs.renew (L := Sample.toy) x'
                    (state_of (Fs.renew (L := Sample.toy) (Sample.fs_ca_down "2") Sample.fs_served))))
         = [].
Proof.
  split; [vm_compute; reflexivity|].
  apply (C1_renew_that_throws_keeps_guard_locked (L := Sample.toy)
           (Sample.fs_ca_down "2") Sample.fs_served AcmeError).
  vm_compute; reflexivity.
Defined.

(** ** A failed renewal and the published pair *)

(** C2 (as stated, refuted).  In the remote variant [api.ssl.set] runs
    before [api.ssl.save]: when the save rejects, the renewal fails with the
    new pair already published in place of the old one. *)
Lemma C2_counterexample_save_rejects_after_set :
  let s := Sample.rm_state (Some Sample.rm_old) (Some Sample.rm_old) "production" in
  let r := Remote.createOrRenewSSl (Sample.rm_ext "1" (Some "CERT-NEW") false)
             (Remote.VFile "CERT-PROD") (Remote.VFile "KEY-0") s in
  result_of r = Threw SaveError
  /\ Remote.ssl s = Some {| Remote.cert := Remote.VFile "CERT-PROD";
                            Remote.key := Remote.VFile "KEY-0" |}
  /\ Remote.ssl (state_of r) = Some {| Remote.cert := Remote.VBuffer "CERT-NEW";
                                       Remote.key := Remote.VBuffer "KEY-1" |}
  /\ Remote.ssl (state_of r) <> Remote.ssl s.
Proof. vm_compute. repeat split; congruence. Qed.

(** C2 (amended).  A renewal of the file-system variant that does not
    return leaves [api.ssl] as it was, whatever step failed.  A renewal of
    the remote variant that does not return leaves the published pair as it
    was, with one exception: when the final [api.ssl.save] rejects, the pair
    is already the newly issued certificate and its key.  (A failed ACME
    exchange ends the process there, with the pair untouched.) *)
Theorem C2_failed_renewal_and_published_pair :
  (forall (L : Libs) (x : Fs.Ext) (s : Fs.State),
      failed (result_of (Fs.renew x s)) = true ->
      Fs.api_ssl (state_of (Fs.renew x s)) = Fs.api_ssl s)
  /\ (forall (x : Remote.Ext) (oldCert oldKey : Remote.JsVal) (s : Remote.State),
        failed (result_of (Remote.createOrRenewSSl x oldCert oldKey s)) = true ->
        Remote.ssl (state_of (Remote.createOrRenewSSl x oldCert oldKey s)) = Remote.ssl s
        \/ exists pem key csr,
             Remote.auto_result x = Some pem
             /\ Remote.createCsr_result x (Remote.cfg_domain s) = Some (key, csr)
             /\ result_of (Remote.createOrRenewSSl x oldCert oldKey s) = Threw SaveError
             /\ Remote.ssl (state_of (Remote.createOrRenewSSl x oldCert oldKey s))
                = Some {| Remote.cert := Remote.VBuffer pem; Remote.key := Remote.VBuffer key |}).
Proof.
  split.
  - intros L x s. apply FsFacts.renew_failed_frame.
  - intros x oldCert oldKey s. apply RemoteFacts.createOrRenewSSl_failed.
Qed.

Lemma C2_witness :
  Fs.api_ssl (state_of (Fs.renew (L := Sample.toy) (Sample.fs_ca_down "2") Sample.fs_served))
  = Fs.api_ssl Sample.fs_served.
Proof.
  apply (proj1 C2_failed_renewal_and_published_pair Sample.toy
           (Sample.fs_ca_down "2") Sample.fs_served).
  vm_compute; reflexivity.
Defined.

(** What a failed renewal of the file-system variant does change: the
    key on disk and in [sslKey] is the new one, next to the old certificate;
    the published pair keeps the old key. *)
Example failed_renewal_overwrites_stored_key :
  let s := state_of (Fs.renew (L := Sample.toy) (Sample.fs_ca_down "2") Sample.fs_served) in
  Fs.files s !! "/etc/relay/letsencrypt/ssl.key" = Some "KEY-2"
  /\ Fs.files s !! "/etc/relay/letsencrypt/ssl.cert" = Some "CERT-PROD"
  /\ Fs.sslKey s = Some "KEY-2"
  /\ Fs.api_ssl s = {| Fs.cert := Some ["CERT-PROD"]; Fs.privateKey := Some "KEY-1" |}.
Proof. vm_compute. repeat split; reflexivity. Qed.

(** ** How the new pair is installed *)

(** At start-up the certificate is published before the key is read, with
    an [await] in between; on a disk that holds [ssl.cert] and no
    [ssl.key], the plugin ends up serving a certificate with no key. *)
Example load_publishes_certificate_before_key :
  let disk := Fs.upd_files (delete "/etc/relay/letsencrypt/ssl.key") Sample.fs_served in
  let r := Fs.plugin (L := Sample.toy) (Sample.fs_ok "2" "CERT-PROD") (Sample.fs_restart disk) in
  result_of r = Returned tt
  /\ Fs.api_ssl (state_of r) = {| Fs.cert := Some ["CERT-PROD"]; Fs.privateKey := None |}.
Proof. vm_compute. split; reflexivity. Qed.

(** C3 (as stated, refuted).  [renew] installs the new pair by four
    assignments to the fields of [api.ssl]; the pair goes through a state
    with no certificate, one with neither field, and one with the new
    certificate and no key. *)
Lemma C3_counterexample_install_is_field_by_field :
  writes (events_of (Fs.renew (L := Sample.toy) (Sample.fs_ok "2" "CERT-STAGING") Sample.fs_served))
  = [ {| Fs.cert := None; Fs.privateKey := Some "KEY-1" |};
      {| Fs.cert := None; Fs.privateKey := None |};
      {| Fs.cert := Some ["CERT-STAGING"]; Fs.privateKey := None |};
      {| Fs.cert := Some ["CERT-STAGING"]; Fs.privateKey := Some "KEY-2" |} ].
Proof. vm_compute. reflexivity. Qed.

(** C3 (amended).  At every [await] of a renewal the published pair is the
    one from before the call.  A renewal that does not return writes nothing
    to it.  One that returns ends with the issued chain and the key
    generated for it, reached by four assignments made without suspension:
    certificate cleared, key cleared, certificate set, key set; so the new
    certificate is never paired with the old key, but it is, for one
    assignment, paired with none. *)
Theorem C3_published_pair_during_renewal {L : Libs} (x : Fs.Ext) (s : Fs.State) :
  Forall (eq (Fs.api_ssl s)) (suspensions (events_of (Fs.renew x s)))
  /\ match result_of (Fs.renew x s) with
     | Returned _ =>
         exists pem key csr,
           Fs.auto_result x = Some pem
           /\ Fs.createCsr_result x (Fs.api_domain s) = Some (key, csr)
           /\ writes (events_of (Fs.renew x s)) =
                [ {| Fs.cert := None; Fs.privateKey := Fs.privateKey (Fs.api_ssl s) |};
                  {| Fs.cert := None; Fs.privateKey := None |};
                  {| Fs.cert := Some (splitPemChain pem); Fs.privateKey := None |};
                  {| Fs.cert := Some (splitPemChain pem); Fs.privateKey := Some key |} ]
           /\ Fs.api_ssl (state_of (Fs.renew x s)) =
                {| Fs.cert := Some (splitPemChain pem); Fs.privateKey := Some key |}
     | _ =>
         writes (events_of (Fs.renew x s)) = []
         /\ Fs.api_ssl (state_of (Fs.renew x s)) = Fs.api_ssl s
     end.
Proof. split; [apply FsFacts.renew_suspensions | apply FsFacts.renew_writes]. Qed.

(** ** The ACME account key *)

(** C4 (as stated, refuted).  The file-system variant generates its account
    key inside [plugin]: two starts of the process on the same disk use two
    different keys, and neither start writes a file. *)
Lemma C4_counterexample_account_key_per_start :
  let r1 := Fs.plugin (L := Sample.toy) (Sample.fs_ok "1" "CERT-PROD") Sample.fs_boot in
  let r2 := Fs.plugin (L := Sample.toy) (Sample.fs_ok "2" "CERT-PROD")
              (Sample.fs_restart (state_of r1)) in
  generated (events_of r1) = ["ACCOUNT-1"]
  /\ generated (events_of r2) = ["ACCOUNT-2"]
  /\ accountKey <$> Fs.client (state_of r1) = Some "ACCOUNT-1"
  /\ accountKey <$> Fs.client (state_of r2) = Some "ACCOUNT-2"
  /\ Fs.files (state_of r1) = ∅
  /\ Fs.files (state_of r2) = ∅.
Proof. vm_compute. repeat split; reflexivity. Qed.

(** C4 (amended).  Remote variant: a renewal that can open
    [/lumeweb/relay/account.key] builds its client with the stored bytes and
    generates no key; one that cannot generates a key and writes it under
    that name before building the client, so that, once the write has taken
    effect, later renewals use the same key.  File-system variant: every
    start of the plugin generates the account key and keeps it in memory
    only; the renewals of that process all use it. *)
Theorem C4_account_key_origin :
  (forall (x : Remote.Ext) (oldCert oldKey : Remote.JsVal) (s : Remote.State) (stored : string),
      Remote.open_ok x Remote.FILE_ACCOUNT_KEY_NAME = true ->
      Remote.files s !! Remote.FILE_ACCOUNT_KEY_NAME = Some stored ->
      generated (events_of (Remote.createOrRenewSSl x oldCert oldKey s)) = []
      /\ clients (events_of (Remote.createOrRenewSSl x oldCert oldKey s))
         = [ {| accountKey := stored;
                directoryUrl := if Remote.isSSlStaging s then letsencrypt_staging
                                else letsencrypt_production |} ]
      /\ Forall (fun ca => accountKey ca.1 = stored)
           (autos (events_of (Remote.createOrRenewSSl x oldCert oldKey s)))
      /\ Remote.files (state_of (Remote.createOrRenewSSl x oldCert oldKey s)) = Remote.files s)
  /\ (forall (x : Remote.Ext) (oldCert oldKey : Remote.JsVal) (s : Remote.State) (c : Client),
        (if Remote.open_ok x Remote.FILE_ACCOUNT_KEY_NAME
         then Remote.files s !! Remote.FILE_ACCOUNT_KEY_NAME else None) = None ->
        c ∈ clients (events_of (Remote.createOrRenewSSl x oldCert oldKey s)) ->
        generated (events_of (Remote.createOrRenewSSl x oldCert oldKey s)) = [accountKey c]
        /\ Forall (fun ca => ca.1 = c)
             (autos (events_of (Remote.createOrRenewSSl x oldCert oldKey s)))
        /\ (Remote.create_ok x Remote.FILE_ACCOUNT_KEY_NAME = true ->
            Remote.files (state_of (Remote.createOrRenewSSl x oldCert oldKey s))
              !! Remote.FILE_ACCOUNT_KEY_NAME = Some (accountKey c)))
  /\ (forall (L : Libs) (x : Fs.Ext) (s : Fs.State),
        result_of (Fs.plugin x s) = Returned tt ->
        exists k url,
          Fs.createPrivateKey_result x = Some k
          /\ Fs.client (state_of (Fs.plugin x s))
             = Some {| accountKey := k; directoryUrl := url |}
          /\ generated (events_of (Fs.plugin x s)) = [k]
          /\ Fs.files (state_of (Fs.plugin x s)) = Fs.files s)
  /\ (forall (L : Libs) (x : Fs.Ext) (s : Fs.State),
        Fs.client (state_of (Fs.renew x s)) = Fs.client s
        /\ generated (events_of (Fs.renew x s)) = []
        /\ Forall (fun ca => Fs.client s = Some ca.1) (autos (events_of (Fs.renew x s)))).
Proof.
  split; [|split; [|split]].
  - intros x oldCert oldKey s stored.
    apply RemoteFacts.createOrRenewSSl_reuses_account_key.
  - intros x oldCert oldKey s c.
    apply RemoteFacts.createOrRenewSSl_creates_account_key.
  - intros L x s. apply FsFacts.plugin_account_key.
  - intros L x s. apply FsFacts.renew_keeps_client.
Qed.

(** Two renewals in a row on a store that starts empty: the second reuses
    the key the first wrote. *)
Lemma C4_witness :
  let first := Remote.createOrRenewSSl (Sample.rm_ext "1" (Some "CERT-PROD") true)
                 Remote.VTrue Remote.VTrue (Sample.rm_state None None "production") in
  let second := Remote.createOrRenewSSl (Sample.rm_ext "2" (Some "CERT-PROD") true)
                  (Remote.VFile "CERT-PROD") (Remote.VFile "KEY-1") (state_of first) in
  generated (events_of second) = []
  /\ clients (events_of second)
     = [ {| accountKey := "ACCOUNT-1"; directoryUrl := letsencrypt_production |} ]
  /\ Forall (fun ca => accountKey ca.1 = "ACCOUNT-1") (autos (events_of second))
  /\ Remote.files (state_of second) = Remote.files (state_of first).
Proof.
  apply (proj1 C4_account_key_origin (Sample.rm_ext "2" (Some "CERT-PROD") true)
           (Remote.VFile "CERT-PROD") (Remote.VFile "KEY-1")
           (state_of (Remote.createOrRenewSSl (Sample.rm_ext "1" (Some "CERT-PROD") true)
                        Remote.VTrue Remote.VTrue (Sample.rm_state None None "production")))
           "ACCOUNT-1");
    vm_compute; reflexivity.
Defined.

(** ** The validity check *)

Example daysLeft_one_month_29_days :
  daysLeft {| years := 0; months := 1; days := 29; hours := 0; minutes := 0; seconds := 0 |} = 59.
Proof. reflexivity. Qed.

(** The years of the duration are not counted. *)
Example daysLeft_ignores_years :
  daysLeft {| years := 1; months := 0; days := 5; hours := 0; minutes := 0; seconds := 0 |} = 5.
Proof. reflexivity. Qed.

Lemma dateValid_spec (left : Z) : dateValid left = false <-> left <= 30.
Proof. unfold dateValid. rewrite Z.ltb_ge. done. Qed.

(** C5 (the code departs from the claim).  The claim wants, for every
    certificate that parses, a renewal when
    [duration.months * 30 + duration.days] is at most 30 and a passed date
    check above.  That is what both variants do for a certificate whose
    issuer has a common name.  For one whose issuer has none, the
    expression [certInfo.issuer.commonName.toLowerCase()] of the environment
    check throws a TypeError: the check rejects, whatever the days left, and
    no renewal is started.  (The code has no reason labels: asking for a
    renewal is calling [renew] in the file-system variant and answering
    [error = true] in the remote one.) *)
Theorem C5_days_left_and_thirty_day_boundary {L : Libs} :
  (forall duration : Duration, daysLeft duration = months duration * 30 + days duration)
  /\ (forall (x : Fs.Ext) (s : Fs.State) (pem : string) (certInfo : CertInfo),
        Fs.sslCert s = Some pem ->
        Js.truthy (Fs.sslCert s) && Js.truthy (Fs.sslKey s) = true ->
        readCertificateInfo pem = Some certInfo ->
        let left := daysLeft (intervalToDuration (Fs.now x) (notAfter certInfo)) in
        (issuer_commonName certInfo = None ->
         Fs.check x s = (Threw TypeError, s, [ESuspend (Fs.api_ssl s)]))
        /\ (issuer_commonName certInfo <> None ->
            (left <= 30 -> Fs.check x s = Fs.await (Fs.renew x) s)
            /\ (30 < left ->
                dateValid left = true
                /\ Fs.check x s =
                     if domainValid (Fs.api_staging s) (Fs.api_domain s) certInfo
                     then (Returned tt, s, [ESuspend (Fs.api_ssl s)])
                     else Fs.await (Fs.renew x) s)))
  /\ (forall (x : Remote.Ext) (boot : bool) (s : Remote.State) (sslData : Remote.SslData)
             (fileData : string) (certInfo : CertInfo),
        Remote.getSaved_ok x = true ->
        Remote.saved s = Some sslData ->
        Remote.cert sslData = Remote.VFile fileData ->
        readCertificateInfo fileData = Some certInfo ->
        let left := daysLeft (intervalToDuration (Remote.now x) (notAfter certInfo)) in
        (issuer_commonName certInfo = None ->
         Remote.check x boot s
         = (Threw TypeError, s,
            [ESuspend (Remote.ssl s); ESuspend (Remote.ssl s); ESuspend (Remote.ssl s)]))
        /\ (issuer_commonName certInfo <> None ->
            (left <= 30 -> result_of (Remote.isSslValid x boot s) = Returned (sslData, true))
            /\ (30 < left ->
                dateValid left = true
                /\ result_of (Remote.isSslValid x boot s) =
                     Returned (sslData,
                               negb (domainValid
                                       (String.eqb (Remote.cfg_ssl_mode s) "staging")
                                       (Remote.cfg_domain s) certInfo))))).
Proof.
  split; [done|]. split.
  - intros x s pem certInfo Hc Ht Hp left.
    rewrite (FsFacts.check_parsed x s pem certInfo Hc Ht Hp). fold left.
    unfold issuerIsStaging, Fs.isSSlStaging.
    destruct (issuer_commonName certInfo) as [commonName|]; cbn; split; try done.
    intros _. split.
    + intros Hle. apply dateValid_spec in Hle. by rewrite Hle.
    + intros Hlt. assert (dateValid left = true) as -> by by apply Z.ltb_lt.
      done.
  - intros x boot s sslData fileData certInfo Hg Hs Hc Hp left.
    rewrite RemoteFacts.check_of_isSslValid.
    rewrite (RemoteFacts.isSslValid_parsed x boot s sslData fileData certInfo Hg Hs Hc Hp).
    fold left. unfold issuerIsStaging, Remote.isSSlStaging.
    destruct (issuer_commonName certInfo) as [commonName|]; cbn; split; try done.
    intros _. split.
    + intros Hle. apply dateValid_spec in Hle. by rewrite Hle.
    + intros Hlt. assert (dateValid left = true) as -> by by apply Z.ltb_lt.
      done.
Qed.

(** A saved certificate that parses, with thirty days left, issued by a CA
    whose name has no CN: the check throws and nothing is renewed. *)
Lemma C5_witness :
  Remote.check (L := Sample.toy) (Sample.rm_on 60) false
    (Sample.rm_state None (Some Sample.rm_no_issuer_cn) "production")
  = (Threw TypeError, Sample.rm_state None (Some Sample.rm_no_issuer_cn) "production",
     [ESuspend None; ESuspend None; ESuspend None]).
Proof.
  apply (proj1 (proj2 (proj2 (C5_days_left_and_thirty_day_boundary (L := Sample.toy)))
                  (Sample.rm_on 60) false
                  (Sample.rm_state None (Some Sample.rm_no_issuer_cn) "production")
                  Sample.rm_no_issuer_cn "CERT-NO-ISSUER-CN"
                  {| notAfter := 90; domains_commonName := "example.test";
                     issuer_commonName := None |}
                  eq_refl eq_refl eq_refl eq_refl)).
  reflexivity.
Defined.

(** Thirty days left and an issuer with a common name: a renewal is asked
    for (the boundary is inclusive). *)
Example thirty_days_left_asks_for_renewal :
  result_of (Remote.isSslValid (L := Sample.toy) (Sample.rm_on 60) false
               (Sample.rm_state None (Some Sample.rm_old) "production"))
  = Returned (Sample.rm_old, true).
Proof. vm_compute. reflexivity. Qed.

(** Thirty-one days left, matching domain and issuer: the saved pair is
    valid. *)
Example thirty_one_days_left_is_valid :
  result_of (Remote.isSslValid (L := Sample.toy) (Sample.rm_on 59) false
               (Sample.rm_state None (Some Sample.rm_old) "production"))
  = Returned (Sample.rm_old, false).
Proof. vm_compute. reflexivity. Qed.



(** A staging certificate for the right domain, ninety days from expiry,
    under a production configuration: a renewal is asked for. *)
Example staging_certificate_under_production_is_renewed :
  result_of (Remote.isSslValid (L := Sample.toy) (Sample.rm_on 0) false
               (Sample.rm_state None (Some Sample.rm_staging) "production"))
  = Returned (Sample.rm_staging, true).
Proof. vm_compute. reflexivity. Qed.

(** The same certificate under a staging configuration is valid. *)
Example staging_certificate_under_staging_is_valid :
  result_of (Remote.isSslValid (L := Sample.toy) (Sample.rm_on 0) false
               (Sample.rm_state None (Some Sample.rm_staging) "staging"))
  = Returned (Sample.rm_staging, false).
Proof. vm_compute. reflexivity. Qed.

(** ** A stored certificate that does not parse *)

(** A file that cannot be read is handled: [plugin] catches the error and
    clears both variables, and [check] then renews as it does on an empty
    disk. *)
Example unreadable_file_is_treated_as_missing :
  let x := {| Fs.now := 0; Fs.mkdir_ok := true;
              Fs.readFile_ok := fun _ => false; Fs.writeFile_ok := fun _ => true;
              Fs.createPrivateKey_result := Some "ACCOUNT-2";
              Fs.createCsr_result := fun _ => Some ("KEY-2", "CSR-2");
              Fs.auto_script := Sample.script; Fs.auto_result := Some "CERT-PROD" |} in
  let s := state_of (Fs.plugin (L := Sample.toy) x (Sample.fs_restart Sample.fs_served)) in
  Fs.sslCert s = None /\ Fs.sslKey s = None
  /\ Fs.check (L := Sample.toy) x s = Fs.renew (L := Sample.toy) x s.
Proof. vm_compute. repeat split; reflexivity. Qed.

(** C7 (the code departs from the claim).  The claim wants a stored
    certificate that does not parse to be handled like a missing one: a
    renewal is asked for and nothing is raised.  Both variants call
    [readCertificateInfo] outside any [try]: when it throws, the check
    rejects with that error, and neither [renew] nor [createOrRenewSSl]
    runs. *)
Theorem C7_unparsable_certificate_rejects_the_check {L : Libs} :
  (forall (x : Fs.Ext) (s : Fs.State) (pem : string),
      Fs.sslCert s = Some pem ->
      Js.truthy (Fs.sslCert s) && Js.truthy (Fs.sslKey s) = true ->
      readCertificateInfo pem = None ->
      Fs.check x s = (Threw ParseError, s, [ESuspend (Fs.api_ssl s)]))
  /\ (forall (x : Remote.Ext) (boot : bool) (s : Remote.State) (sslData : Remote.SslData)
             (fileData : string),
        Remote.getSaved_ok x = true ->
        Remote.saved s = Some sslData ->
        Remote.cert sslData = Remote.VFile fileData ->
        readCertificateInfo fileData = None ->
        Remote.check x boot s
        = (Threw ParseError, s,
           [ESuspend (Remote.ssl s); ESuspend (Remote.ssl s); ESuspend (Remote.ssl s)])).
Proof.
  split.
  - intros x s pem. apply FsFacts.check_unparsable.
  - intros x boot s sslData fileData Hg Hs Hc Hp.
    rewrite RemoteFacts.check_of_isSslValid.
    by rewrite (RemoteFacts.isSslValid_unparsable x boot s sslData fileData Hg Hs Hc Hp).
Qed.

(** On a disk whose [ssl.cert] holds ["garbage"] next to a key, [check]
    throws; on the same disk without the certificate it renews. *)
Lemma C7_witness :
  Fs.check (L := Sample.toy) (Sample.fs_ok "3" "CERT-PROD") Sample.fs_corrupt
  = (Threw ParseError, Sample.fs_corrupt, [ESuspend (Fs.api_ssl Sample.fs_corrupt)]).
Proof.
  apply (proj1 (C7_unparsable_certificate_rejects_the_check (L := Sample.toy))
           (Sample.fs_ok "3" "CERT-PROD") Sample.fs_corrupt "garbage");
    vm_compute; reflexivity.
Defined.

Example remote_check_on_garbage_throws :
  let s := Sample.rm_state None (Some Sample.rm_garbage) "production" in
  Remote.check (L := Sample.toy) (Sample.rm_on 0) true s
  = (Threw ParseError, s, [ESuspend None; ESuspend None; ESuspend None]).
Proof. vm_compute. reflexivity. Qed.

Example missing_certificate_is_renewed :
  let s := Fs.set_sslCert None Sample.fs_corrupt in
  Fs.check (L := Sample.toy) (Sample.fs_ok "3" "CERT-PROD") s
  = Fs.renew (L := Sample.toy) (Sample.fs_ok "3" "CERT-PROD") s
  /\ result_of (Fs.renew (L := Sample.toy) (Sample.fs_ok "3" "CERT-PROD") s) = Returned tt.
Proof. vm_compute. split; reflexivity. Qed.

(** ** What the ACME client is called with *)

(** C8 (as stated, refuted).  [renew] of the file-system variant passes no
    [challengePriority]. *)
Lemma C8_counterexample_no_challenge_priority :
  autos (events_of (Fs.renew (L := Sample.toy) (Sample.fs_ok "1" "CERT-PROD") Sample.fs_ready))
  = [ ({| accountKey := "ACCOUNT-1"; directoryUrl := letsencrypt_production |},
       {| arg_csr := Some "CSR-1";
          arg_termsOfServiceAgreed := true;
          arg_challengePriority := None |}) ].
Proof. vm_compute. reflexivity. Qed.

(** C8 (amended).  Every call of [client.auto] passes
    [termsOfServiceAgreed: true].  The remote variant also passes
    [challengePriority: ["http-01"]]; the file-system variant passes no
    [challengePriority], leaving the choice of challenge type to the
    client. *)
Theorem C8_options_of_every_auto_call :
  (forall (L : Libs) (x : Fs.Ext) (s : Fs.State),
      Forall (fun ca => arg_termsOfServiceAgreed ca.2 = true
                        /\ arg_challengePriority ca.2 = None)
        (autos (events_of (Fs.renew x s))))
  /\ (forall (x : Remote.Ext) (oldCert oldKey : Remote.JsVal) (s : Remote.State),
        Forall (fun ca => arg_termsOfServiceAgreed ca.2 = true
                          /\ arg_challengePriority ca.2 = Some ["http-01"])
          (autos (events_of (Remote.createOrRenewSSl x oldCert oldKey s)))).
Proof.
  split.
  - intros L x s. apply FsFacts.renew_autos.
  - intros x oldCert oldKey s. apply RemoteFacts.createOrRenewSSl_autos.
Qed.

(** ** The new private key and the CA *)



(** In the file-system variant the same reading of the trace finds the
    write of [ssl.key] between the CSR and the exchange. *)
Example fs_key_is_stored_between_csr_and_auto :
  stored_for_csr false
    (events_of (Fs.renew (L := Sample.toy) (Sample.fs_ok "2" "CERT-PROD") Sample.fs_served))
  = [EWriteFile "/etc/relay/letsencrypt/ssl.key" "KEY-2"].
Proof. vm_compute. reflexivity. Qed.


(** ** The challenge-remove callback of the remote variant *)



(** * Further properties of the code *)

(** ** Definitions *)

Definition step_token (step : ChallengeStep) : string :=
  match step with
  | CreateStep _ c _ | RemoveStep _ c _ => token c
  end.

(** The effects of a renewal happen while the guard is held; [held] says
    whether the run holds it at this point of its trace. *)
Fixpoint guarded {T} (held : bool) (evs : list (Event T)) : bool :=
  match evs with
  | [] => true
  | EAcquire :: rest => negb held && guarded true rest
  | ERelease :: rest => held && guarded false rest
  | ECreateCsr _ _ :: rest | EWriteFile _ _ :: rest | EAuto _ _ :: rest
  | ESslWrite _ :: rest => held && guarded held rest
  | _ :: rest => guarded held rest
  end.

(** What a trace does to the guard, in order. *)
Definition guard_events {T} (evs : list (Event T)) : list (Event T) :=
  List.filter (fun e => match e with EAcquire | ERelease => true | _ => false end) evs.

(** The paths [plugin] computes from ["core.confdir"]. *)
Definition keyPathOf (confdir : string) : string :=
  Js.path_join (Js.path_join confdir "letsencrypt") "ssl.key".
Definition certPathOf (confdir : string) : string :=
  Js.path_join (Js.path_join confdir "letsencrypt") "ssl.cert".

(** The collaborators of a start of the file-system plugin: whether each
    file can be read, and the account key generated. *)
Definition fs_start (readable : string -> bool) (account : string) : Fs.Ext :=
  {| Fs.now := 0; Fs.mkdir_ok := true;
     Fs.readFile_ok := readable; Fs.writeFile_ok := fun _ => true;
     Fs.createPrivateKey_result := Some account;
     Fs.createCsr_result := fun _ => Some ("KEY-9", "CSR-9");
     Fs.auto_script := Sample.script;
     Fs.auto_result := Some "CERT-PROD" |}.

(** A remote renewal whose store holds no account key yet. *)
Definition rm_fresh : Remote.State := Sample.rm_state None None "production".

(** ** Strings *)

Lemma append_cons (c : ascii) (a b : string) :
  String c a +:+ b = String c (a +:+ b).
Proof. reflexivity. Qed.

Lemma append_inj_r (a b c : string) : a +:+ b = a +:+ c -> b = c.
Proof.
  induction a as [|ch a IH]; [done|].
  rewrite !append_cons. intros [= H]. by apply IH.
Qed.

Lemma key_path_is_not_cert_path (confdir : string) :
  keyPathOf confdir <> certPathOf confdir.
Proof.
  unfold keyPathOf, certPathOf, Js.path_join. intros H.
  apply append_inj_r in H. discriminate H.
Qed.

Lemma prefix_iff (a b : string) :
  String.prefix a b = true <-> exists post, b = a +:+ post.
Proof.
  revert b. induction a as [|c a IH]; intros b.
  - destruct b; cbn; split; eauto.
  - destruct b as [|c' b]; cbn.
    + split; [done | by intros [post [=]]].
    + destruct (ascii_dec c c') as [->|Hne].
      * rewrite IH. split; intros [post H]; exists post;
          rewrite append_cons in *; congruence.
      * split; [done | intros [post H]; rewrite append_cons in H; congruence].
Qed.

Lemma includes_iff (needle s : string) :
  Js.includes needle s = true <-> exists pre post, s = pre +:+ needle +:+ post.
Proof.
  induction s as [|c s IH].
  - change (Js.includes needle "") with (String.prefix needle "" || false).
    rewrite orb_false_r, prefix_iff. split.
    + intros [post H]. by exists "", post.
    + intros [[|c pre] [post H]]; [by exists post | discriminate H].
  - change (Js.includes needle (String c s))
      with (String.prefix needle (String c s) || Js.includes needle s).
    rewrite orb_true_iff, prefix_iff, IH. split.
    + intros [[post H]|(pre & post & H)].
      * by exists "", post.
      * exists (String c pre), post. by rewrite append_cons, H.
    + intros [[|c' pre] [post H]].
      * left. by exists post.
      * right. rewrite append_cons in H. injection H as -> H. by exists pre, post.
Qed.

Lemma toLowerCase_app (a b : string) :
  Js.toLowerCase (a +:+ b) = Js.toLowerCase a +:+ Js.toLowerCase b.
Proof.
  induction a as [|c a IH]; [done|].
  rewrite append_cons. cbn. by rewrite IH.
Qed.

Lemma toLowerCase_split (s a b : string) :
  Js.toLowerCase s = a +:+ b ->
  exists a0 b0, s = a0 +:+ b0 /\ Js.toLowerCase a0 = a /\ Js.toLowerCase b0 = b.
Proof.
  revert s. induction a as [|c a IH]; intros s H.
  - by exists "", s.
  - rewrite append_cons in H.
    destruct s as [|c0 s]; [discriminate H|]. cbn in H. injection H as Hc H.
    destruct (IH s H) as (a0 & b0 & -> & Ha & Hb).
    exists (String c0 a0), b0. cbn. by rewrite Hc, Ha.
Qed.

(** X1.  The issuer of a certificate counts as a staging CA exactly when
    its common name contains, somewhere, a word that lowers to
    ["staging"]: the test of both validity checks is a case-insensitive
    substring test (on the 8-bit characters modelled). *)
Theorem X1_issuer_is_staging_iff (certInfo : CertInfo) :
  issuerIsStaging certInfo = Some true
  <-> exists pre word post,
        issuer_commonName certInfo = Some (pre +:+ word +:+ post)
        /\ Js.toLowerCase word = "staging".
Proof.
  unfold issuerIsStaging. destruct (issuer_commonName certInfo) as [commonName|]; cbn.
  - split.
    + intros H. injection H as H. apply includes_iff in H as (pre & post & H).
      apply toLowerCase_split in H as (pre0 & rest & H & _ & Hrest).
      apply toLowerCase_split in Hrest as (word & post0 & -> & Hw & _).
      exists pre0, word, post0. by rewrite H.
    + intros (pre & word & post & [= ->] & Hw). f_equal. apply includes_iff.
      exists (Js.toLowerCase pre), (Js.toLowerCase post).
      by rewrite !toLowerCase_app, Hw.
  - split; [done|]. by intros (? & ? & ? & ? & ?).
Qed.

Example issuer_with_mixed_case_is_staging :
  issuerIsStaging {| notAfter := 0; domains_commonName := "example.test";
                     issuer_commonName := Some "Fake LE (StAgInG) Root" |} = Some true.
Proof. reflexivity. Qed.

(** ** The date check *)

(** X2.  On a duration as the calendar gives it (no negative field, at
    most thirty days beside the months) the date check passes exactly when
    two months or more remain, or one month and at least a day; the years
    of the duration play no part. *)
Theorem X2_date_check_on_calendar_durations (duration : Duration) :
  0 <= months duration ->
  0 <= days duration <= 30 ->
  dateValid (daysLeft duration) = true
  <-> 2 <= months duration \/ (months duration = 1 /\ 1 <= days duration).
Proof.
  intros Hm Hd. unfold dateValid, daysLeft. rewrite Z.ltb_lt. lia.
Qed.

Lemma X2_witness :
  dateValid (daysLeft {| years := 1; months := 1; days := 0;
                         hours := 23; minutes := 59; seconds := 59 |}) = true
  <-> 2 <= 1 \/ (1 = 1 /\ 1 <= 0).
Proof.
  apply (X2_date_check_on_calendar_durations
           {| years := 1; months := 1; days := 0;
              hours := 23; minutes := 59; seconds := 59 |}); cbn; lia.
Defined.

(** ** The file-system variant *)

Module FsMore.
Import Fs.

(** *** The challenge responder *)

Lemma script_effect_other steps (m : gmap string string) t :
  Forall (fun step => step_token step <> t) steps ->
  FsFacts.script_effect steps m !! t = m !! t.
Proof.
  intros H. revert m. induction H as [|[a c k|a c k] rest Hne _ IH]; intros m; cbn in *.
  - done.
  - rewrite IH. by rewrite lookup_insert_ne.
  - rewrite IH. by rewrite lookup_delete_ne.
Qed.

Lemma script_effect_app pre post (m : gmap string string) :
  FsFacts.script_effect (pre ++ post) m
  = FsFacts.script_effect post (FsFacts.script_effect pre m).
Proof. revert m. induction pre as [|[] pre IH]; intros m; cbn; done. Qed.

(** X3.  After the create callback the route of the challenge's token
    answers 200 with the key authorization; after the remove callback it
    answers 404; the answer for any other token is what it was. *)
Theorem X3_challenge_put_lookup_remove
    (authz : string) (challenge : Challenge) (keyAuthorization other : string) (s : State) :
  let put := state_of (renew_challengeCreateFn authz challenge keyAuthorization s) in
  let gone := state_of (renew_challengeRemoveFn authz challenge keyAuthorization put) in
  challengeRoute (token challenge) put = (200, Some keyAuthorization)
  /\ challengeRoute (token challenge) gone = (404, None)
  /\ (other <> token challenge ->
      challengeRoute other put = challengeRoute other s
      /\ challengeRoute other gone = challengeRoute other s).
Proof.
  cbn. unfold challengeRoute; cbn.
  rewrite lookup_insert_eq, lookup_delete_eq. repeat split; try done.
  - by rewrite lookup_insert_ne.
  - by rewrite lookup_delete_ne, lookup_insert_ne.
Qed.

(** X4.  Whatever callbacks the ACME client makes, what the route answers
    for a token afterwards is decided by the last callback that names it:
    404 after a remove (no stale entry is served), 200 with the key
    authorization after a create. *)
Theorem X4_route_after_the_callbacks (csr : option string) (pre post : list ChallengeStep)
    (authz : string) (challenge : Challenge) (keyAuthorization : string) (s : State) :
  Forall (fun step => step_token step <> token challenge) post ->
  challengeRoute (token challenge)
    (state_of (run_script (renew_options csr)
                 (pre ++ RemoveStep authz challenge keyAuthorization :: post) s))
  = (404, None)
  /\ challengeRoute (token challenge)
       (state_of (run_script (renew_options csr)
                    (pre ++ CreateStep authz challenge keyAuthorization :: post) s))
     = (200, Some keyAuthorization).
Proof.
  intros H. rewrite !FsFacts.run_script_renew. unfold challengeRoute; cbn.
  rewrite !script_effect_app; cbn. rewrite !script_effect_other by done.
  by rewrite lookup_insert_eq, lookup_delete_eq.
Qed.

Lemma X4_witness :
  challengeRoute "tok"
    (state_of (run_script (renew_options None)
                 ([CreateStep "example.test" (Sample.http01 "tok") "tok.thumb"]
                  ++ RemoveStep "example.test" (Sample.http01 "tok") "tok.thumb"
                  :: [CreateStep "example.test" (Sample.http01 "other") "other.thumb"])
                 Sample.fs_ready))
  = (404, None)
  /\ challengeRoute "tok"
       (state_of (run_script (renew_options None)
                    ([CreateStep "example.test" (Sample.http01 "tok") "tok.thumb"]
                     ++ CreateStep "example.test" (Sample.http01 "tok") "tok.thumb"
                     :: [CreateStep "example.test" (Sample.http01 "other") "other.thumb"])
                    Sample.fs_ready))
     = (200, Some "tok.thumb").
Proof.
  apply (X4_route_after_the_callbacks None
           [CreateStep "example.test" (Sample.http01 "tok") "tok.thumb"]
           [CreateStep "example.test" (Sample.http01 "other") "other.thumb"]
           "example.test" (Sample.http01 "tok") "tok.thumb" Sample.fs_ready).
  repeat constructor. cbn. discriminate.
Defined.

(** *** [renew] *)

Section Renew.
Context {L : Libs}.

Ltac renew_cases x s :=
  unfold renew, generateCsr, install; FsFacts.unfold_run; cbn;
  destruct (renewMutex s) eqn:Hlocked; cbn;
  [ | destruct (client s) as [c|] eqn:Hclient; cbn;
      [ destruct (createCsr_result x (api_domain s)) as [[key csr]|] eqn:Hcsr; cbn;
        [ destruct (writeFile_ok x (sslKeyPath s)) eqn:Hwkey; cbn;
          [ rewrite FsFacts.run_script_renew; cbn;
            destruct (auto_result x) as [pem|] eqn:Hauto; cbn;
            [ destruct (writeFile_ok x (sslCertPath s)) eqn:Hwcert; cbn | ]
          | ]
        | ]
      | ]
  ].

(** X5.  In every run of [renew], the CSR, the file writes, the ACME
    exchange and the writes to the published pair all happen after the
    guard was acquired and before it is released; the guard is acquired at
    most once and never released unheld.  What a run does to the guard is
    nothing, one [acquire], or one [acquire] and then one [release]; a run
    that starts with the guard free acquires it, and releases it exactly
    when it returns. *)
Theorem X5_renew_works_under_the_guard (x : Ext) (s : State) :
  guarded false (events_of (renew x s)) = true
  /\ (guard_events (events_of (renew x s)) = []
      \/ guard_events (events_of (renew x s)) = [EAcquire]
      \/ guard_events (events_of (renew x s)) = [EAcquire; ERelease])
  /\ (List.length (List.filter (fun e => match e with EAcquire => true | _ => false end)
                     (events_of (renew x s))) <= 1)%nat
  /\ (renewMutex s = false ->
      guard_events (events_of (renew x s))
      = EAcquire :: match result_of (renew x s) with
                    | Returned _ => [ERelease]
                    | _ => []
                    end).
Proof.
  renew_cases x s; cbn; (split; [done|]); (split; [auto|]); (split; [lia|done]).
Qed.

Example renew_that_throws_takes_the_guard_once_and_keeps_it :
  guard_events (events_of (renew (L := Sample.toy) (Sample.fs_ca_down "2") Sample.fs_served))
  = [EAcquire].
Proof. vm_compute. reflexivity. Qed.

Lemma renew_frame x s :
  api_confdir (state_of (renew x s)) = api_confdir s
  /\ api_staging (state_of (renew x s)) = api_staging s
  /\ api_domain (state_of (renew x s)) = api_domain s
  /\ sslKeyPath (state_of (renew x s)) = sslKeyPath s
  /\ sslCertPath (state_of (renew x s)) = sslCertPath s
  /\ dirs (state_of (renew x s)) = dirs s.
Proof. renew_cases x s; done. Qed.

Lemma renew_success x s :
  sslKeyPath s <> sslCertPath s ->
  result_of (renew x s) = Returned tt ->
  exists pem key csr,
    auto_result x = Some pem
    /\ createCsr_result x (api_domain s) = Some (key, csr)
    /\ files (state_of (renew x s)) !! sslCertPath s = Some pem
    /\ files (state_of (renew x s)) !! sslKeyPath s = Some key
    /\ api_ssl (state_of (renew x s))
       = {| cert := Some (splitPemChain pem); privateKey := Some key |}
    /\ sslKey (state_of (renew x s)) = Some key
    /\ renewMutex (state_of (renew x s)) = false
    /\ forall path, path <> sslKeyPath s -> path <> sslCertPath s ->
         files (state_of (renew x s)) !! path = files s !! path.
Proof.
  intros Hne. renew_cases x s; try done. intros _.
  exists pem, key, csr. repeat split; try done.
  - by rewrite lookup_insert_eq.
  - by rewrite lookup_insert_ne, lookup_insert_eq.
  - intros path H1 H2. by rewrite !lookup_insert_ne.
Qed.

(** X7.  After a [renew] that returns, the disk and the host agree:
    [ssl.cert] holds the chain the CA issued, [ssl.key] the key generated
    for its CSR, the published pair is that chain (split) with that key, the
    guard is free, and no other file was touched. *)
Theorem X7_successful_renew_disk_and_published_pair (x : Ext) (s : State) :
  sslKeyPath s <> sslCertPath s ->
  result_of (renew x s) = Returned tt ->
  exists pem key csr,
    auto_result x = Some pem
    /\ createCsr_result x (api_domain s) = Some (key, csr)
    /\ files (state_of (renew x s)) !! sslCertPath s = Some pem
    /\ files (state_of (renew x s)) !! sslKeyPath s = Some key
    /\ api_ssl (state_of (renew x s))
       = {| cert := Some (splitPemChain pem); privateKey := Some key |}
    /\ sslKey (state_of (renew x s)) = Some key
    /\ renewMutex (state_of (renew x s)) = false
    /\ forall path, path <> sslKeyPath s -> path <> sslCertPath s ->
         files (state_of (renew x s)) !! path = files s !! path.
Proof. intros Hne Hr. by apply renew_success. Qed.

Lemma renew_keeps_sslCert x s : sslCert (state_of (renew x s)) = sslCert s.
Proof. renew_cases x s; done. Qed.

(** X8.  [renew] never assigns [sslCert]: the variable [check] reads keeps
    its value from the start of the process.  So in a process that started
    without a certificate, every [check] after a renewal, successful or
    not, renews again. *)
Theorem X8_renew_never_updates_sslCert (x : Ext) (s : State) :
  sslCert (state_of (renew x s)) = sslCert s
  /\ (Js.truthy (sslCert s) = false ->
      forall x', check x' (state_of (renew x s)) = renew x' (state_of (renew x s))).
Proof.
  split; [apply renew_keeps_sslCert|]. intros Hf x'. apply FsFacts.check_missing.
  by rewrite renew_keeps_sslCert, Hf.
Qed.

Lemma renew_csr x s :
  Forall (fun ca => exists key csr,
              createCsr_result x (api_domain s) = Some (key, csr)
              /\ arg_csr ca.2 = Some csr)
    (autos (events_of (renew x s))).
Proof.
  renew_cases x s;
    repeat first [apply Forall_nil_2 | apply Forall_cons_2; [by exists key, csr|]].
Qed.

End Renew.

Lemma X7_witness :
  exists pem key csr,
    auto_result (Sample.fs_ok "2" "CERT-STAGING") = Some pem
    /\ createCsr_result (Sample.fs_ok "2" "CERT-STAGING") (api_domain Sample.fs_served)
       = Some (key, csr)
    /\ files (state_of (renew (L := Sample.toy) (Sample.fs_ok "2" "CERT-STAGING")
                          Sample.fs_served)) !! sslCertPath Sample.fs_served = Some pem
    /\ files (state_of (renew (L := Sample.toy) (Sample.fs_ok "2" "CERT-STAGING")
                          Sample.fs_served)) !! sslKeyPath Sample.fs_served = Some key
    /\ api_ssl (state_of (renew (L := Sample.toy) (Sample.fs_ok "2" "CERT-STAGING")
                            Sample.fs_served))
       = {| cert := Some (splitPemChain (Libs := Sample.toy) pem); privateKey := Some key |}
    /\ sslKey (state_of (renew (L := Sample.toy) (Sample.fs_ok "2" "CERT-STAGING")
                           Sample.fs_served)) = Some key
    /\ renewMutex (state_of (renew (L := Sample.toy) (Sample.fs_ok "2" "CERT-STAGING")
                               Sample.fs_served)) = false
    /\ forall path, path <> sslKeyPath Sample.fs_served ->
         path <> sslCertPath Sample.fs_served ->
         files (state_of (renew (L := Sample.toy) (Sample.fs_ok "2" "CERT-STAGING")
                            Sample.fs_served)) !! path
         = files Sample.fs_served !! path.
Proof.
  apply (X7_successful_renew_disk_and_published_pair (L := Sample.toy)
           (Sample.fs_ok "2" "CERT-STAGING") Sample.fs_served).
  - vm_compute. discriminate.
  - vm_compute; reflexivity.
Defined.

(** A process started on an empty disk renews at its first [check], and,
    that renewal having succeeded, renews again at the next. *)
Lemma X8_witness :
  check (L := Sample.toy) (Sample.fs_ok "2" "CERT-PROD")
    (state_of (renew (L := Sample.toy) (Sample.fs_ok "1" "CERT-PROD") Sample.fs_ready))
  = renew (L := Sample.toy) (Sample.fs_ok "2" "CERT-PROD")
      (state_of (renew (L := Sample.toy) (Sample.fs_ok "1" "CERT-PROD") Sample.fs_ready)).
Proof.
  apply (proj2 (X8_renew_never_updates_sslCert (L := Sample.toy)
                  (Sample.fs_ok "1" "CERT-PROD") Sample.fs_ready)).
  vm_compute; reflexivity.
Defined.

(** *** [plugin] *)

Section Plugin.
Context {L : Libs}.

Lemma plugin_loads (x : Ext) (s : State) (pem key k : string) :
  files s !! certPathOf (api_confdir s) = Some pem ->
  files s !! keyPathOf (api_confdir s) = Some key ->
  readFile_ok x (certPathOf (api_confdir s)) = true ->
  readFile_ok x (keyPathOf (api_confdir s)) = true ->
  mkdir_ok x = true ->
  createPrivateKey_result x = Some k ->
  result_of (plugin x s) = Returned tt
  /\ sslCert (state_of (plugin x s)) = Some pem
  /\ sslKey (state_of (plugin x s)) = Some key
  /\ api_ssl (state_of (plugin x s))
     = {| cert := Some (splitPemChain pem); privateKey := Some key |}
  /\ files (state_of (plugin x s)) = files s.
Proof.
  unfold keyPathOf, certPathOf. intros Hc Hk Hrc Hrk Hm Hg.
  unfold plugin, load, existsSync; FsFacts.unfold_run.
  unfold Js.path_join in *; cbn in *. rewrite Hm, Hg.
  destruct (bool_decide _ || bool_decide _); cbn;
    repeat (first [rewrite Hc | rewrite Hk | rewrite Hrc | rewrite Hrk
                  | rewrite orb_true_r]; cbn);
    done.
Qed.

(** X9.  On a disk that holds both files, readable, [plugin] returns with
    [sslCert] and [sslKey] set to their contents and publishes the split
    chain with the key, without writing any file. *)
Theorem X9_plugin_publishes_what_the_disk_holds (x : Ext) (s : State) (pem key k : string) :
  files s !! certPathOf (api_confdir s) = Some pem ->
  files s !! keyPathOf (api_confdir s) = Some key ->
  readFile_ok x (certPathOf (api_confdir s)) = true ->
  readFile_ok x (keyPathOf (api_confdir s)) = true ->
  mkdir_ok x = true ->
  createPrivateKey_result x = Some k ->
  result_of (plugin x s) = Returned tt
  /\ sslCert (state_of (plugin x s)) = Some pem
  /\ sslKey (state_of (plugin x s)) = Some key
  /\ api_ssl (state_of (plugin x s))
     = {| cert := Some (splitPemChain pem); privateKey := Some key |}
  /\ files (state_of (plugin x s)) = files s.
Proof. apply plugin_loads. Qed.

(** X10.  When a file that exists cannot be read, [plugin] still returns,
    with both [sslCert] and [sslKey] undefined (also when the certificate
    had been read before the key failed), so that the next [check]
    renews. *)
Theorem X10_plugin_with_unreadable_file (x : Ext) (s : State) (k : string) :
  mkdir_ok x = true ->
  createPrivateKey_result x = Some k ->
  (is_Some (files s !! certPathOf (api_confdir s))
   /\ readFile_ok x (certPathOf (api_confdir s)) = false)
  \/ (is_Some (files s !! keyPathOf (api_confdir s))
      /\ readFile_ok x (keyPathOf (api_confdir s)) = false) ->
  result_of (plugin x s) = Returned tt
  /\ sslCert (state_of (plugin x s)) = None
  /\ sslKey (state_of (plugin x s)) = None
  /\ forall x', check x' (state_of (plugin x s)) = renew x' (state_of (plugin x s)).
Proof.
  intros Hm Hg H.
  assert (result_of (plugin x s) = Returned tt
          /\ sslCert (state_of (plugin x s)) = None
          /\ sslKey (state_of (plugin x s)) = None) as (Hr & Hc & Hk).
  { revert H. unfold keyPathOf, certPathOf. intros H.
    unfold plugin, load, existsSync; FsFacts.unfold_run.
    unfold Js.path_join in *; cbn in *. rewrite Hm, Hg.
    destruct H as [[[d Hf] Hr]|[[d Hf] Hr]];
      repeat (case_match; cbn in *; simplify_eq; try done);
      cbn in *; rewrite ?Hf, ?Hr in *; cbn in *; rewrite ?orb_true_r in *; congruence. }
  repeat split; try done.
  intros x'. apply FsFacts.check_missing. by rewrite Hc.
Qed.

Lemma plugin_directory x s :
  result_of (plugin x s) = Returned tt ->
  directoryUrl <$> client (state_of (plugin x s))
  = Some (if api_staging s then letsencrypt_staging else letsencrypt_production).
Proof.
  unfold plugin, load, existsSync; FsFacts.unfold_run; cbn;
    repeat (case_match; cbn in *; simplify_eq; try done).
Qed.

(** X11.  The pair a successful [renew] published survives a restart: a
    later start of the plugin on the disk that renewal left, with both
    files readable, publishes the same pair again, and this time sets
    [sslCert] to the issued chain. *)
Theorem X11_issued_pair_survives_restart (x x' : Ext) (s : State) (k : string) :
  sslKeyPath s = keyPathOf (api_confdir s) ->
  sslCertPath s = certPathOf (api_confdir s) ->
  result_of (renew x s) = Returned tt ->
  readFile_ok x' (certPathOf (api_confdir s)) = true ->
  readFile_ok x' (keyPathOf (api_confdir s)) = true ->
  mkdir_ok x' = true ->
  createPrivateKey_result x' = Some k ->
  result_of (plugin x' (Sample.fs_restart (state_of (renew x s)))) = Returned tt
  /\ api_ssl (state_of (plugin x' (Sample.fs_restart (state_of (renew x s)))))
     = api_ssl (state_of (renew x s))
  /\ sslKey (state_of (plugin x' (Sample.fs_restart (state_of (renew x s)))))
     = sslKey (state_of (renew x s))
  /\ sslCert (state_of (plugin x' (Sample.fs_restart (state_of (renew x s)))))
     = Fs.auto_result x.
Proof.
  intros Hkp Hcp Hr Hrc Hrk Hm Hg.
  destruct (renew_success x s) as (pem & key & csr & Ha & _ & Hfc & Hfk & Hssl & Hsk & _);
    [rewrite Hkp, Hcp; apply key_path_is_not_cert_path | done |].
  destruct (renew_frame x s) as (Hconf & _).
  rewrite Hcp in Hfc. rewrite Hkp in Hfk.
  pose proof (plugin_loads x' (Sample.fs_restart (state_of (renew x s))) pem key k) as Hl.
  change (api_confdir (Sample.fs_restart (state_of (renew x s))))
    with (api_confdir (state_of (renew x s))) in Hl.
  change (files (Sample.fs_restart (state_of (renew x s))))
    with (files (state_of (renew x s))) in Hl.
  rewrite Hconf in Hl.
  destruct (Hl Hfc Hfk Hrc Hrk Hm Hg) as (H1 & H2 & H3 & H4 & _).
  by rewrite H1, H2, H3, H4, Hssl, Hsk, Ha.
Qed.

End Plugin.

Lemma X9_witness :
  result_of (plugin (L := Sample.toy) (fs_start (fun _ => true) "ACCOUNT-2")
               (Sample.fs_restart Sample.fs_served)) = Returned tt
  /\ sslCert (state_of (plugin (L := Sample.toy) (fs_start (fun _ => true) "ACCOUNT-2")
                          (Sample.fs_restart Sample.fs_served))) = Some "CERT-PROD"
  /\ sslKey (state_of (plugin (L := Sample.toy) (fs_start (fun _ => true) "ACCOUNT-2")
                         (Sample.fs_restart Sample.fs_served))) = Some "KEY-1"
  /\ api_ssl (state_of (plugin (L := Sample.toy) (fs_start (fun _ => true) "ACCOUNT-2")
                          (Sample.fs_restart Sample.fs_served)))
     = {| cert := Some (splitPemChain (Libs := Sample.toy) "CERT-PROD");
          privateKey := Some "KEY-1" |}
  /\ files (state_of (plugin (L := Sample.toy) (fs_start (fun _ => true) "ACCOUNT-2")
                        (Sample.fs_restart Sample.fs_served)))
     = files (Sample.fs_restart Sample.fs_served).
Proof.
  apply (X9_plugin_publishes_what_the_disk_holds (L := Sample.toy)
           (fs_start (fun _ => true) "ACCOUNT-2") (Sample.fs_restart Sample.fs_served)
           "CERT-PROD" "KEY-1" "ACCOUNT-2");
    vm_compute; reflexivity.
Defined.

(** The key cannot be read: the certificate was published, and both
    variables are cleared. *)
Lemma X10_witness :
  result_of (plugin (L := Sample.toy)
               (fs_start (fun path => negb (String.eqb path "/etc/relay/letsencrypt/ssl.key"))
                  "ACCOUNT-2")
               (Sample.fs_restart Sample.fs_served)) = Returned tt
  /\ sslCert (state_of (plugin (L := Sample.toy)
               (fs_start (fun path => negb (String.eqb path "/etc/relay/letsencrypt/ssl.key"))
                  "ACCOUNT-2")
               (Sample.fs_restart Sample.fs_served))) = None
  /\ sslKey (state_of (plugin (L := Sample.toy)
               (fs_start (fun path => negb (String.eqb path "/etc/relay/letsencrypt/ssl.key"))
                  "ACCOUNT-2")
               (Sample.fs_restart Sample.fs_served))) = None
  /\ forall x',
       check (L := Sample.toy) x'
         (state_of (plugin (L := Sample.toy)
               (fs_start (fun path => negb (String.eqb path "/etc/relay/letsencrypt/ssl.key"))
                  "ACCOUNT-2")
               (Sample.fs_restart Sample.fs_served)))
       = renew (L := Sample.toy) x'
           (state_of (plugin (L := Sample.toy)
               (fs_start (fun path => negb (String.eqb path "/etc/relay/letsencrypt/ssl.key"))
                  "ACCOUNT-2")
               (Sample.fs_restart Sample.fs_served))).
Proof.
  apply (X10_plugin_with_unreadable_file (L := Sample.toy)
           (fs_start (fun path => negb (String.eqb path "/etc/relay/letsencrypt/ssl.key"))
              "ACCOUNT-2")
           (Sample.fs_restart Sample.fs_served) "ACCOUNT-2");
    [reflexivity | reflexivity |].
  right. split; [by eexists; vm_compute | vm_compute; reflexivity].
Defined.

Lemma X11_witness :
  result_of (plugin (L := Sample.toy) (fs_start (fun _ => true) "ACCOUNT-2")
               (Sample.fs_restart
                  (state_of (renew (L := Sample.toy) (Sample.fs_ok "1" "CERT-PROD")
                               Sample.fs_ready)))) = Returned tt
  /\ api_ssl (state_of (plugin (L := Sample.toy) (fs_start (fun _ => true) "ACCOUNT-2")
               (Sample.fs_restart
                  (state_of (renew (L := Sample.toy) (Sample.fs_ok "1" "CERT-PROD")
                               Sample.fs_ready)))))
     = api_ssl (state_of (renew (L := Sample.toy) (Sample.fs_ok "1" "CERT-PROD")
                            Sample.fs_ready))
  /\ sslKey (state_of (plugin (L := Sample.toy) (fs_start (fun _ => true) "ACCOUNT-2")
               (Sample.fs_restart
                  (state_of (renew (L := Sample.toy) (Sample.fs_ok "1" "CERT-PROD")
                               Sample.fs_ready)))))
     = sslKey (state_of (renew (L := Sample.toy) (Sample.fs_ok "1" "CERT-PROD")
                           Sample.fs_ready))
  /\ sslCert (state_of (plugin (L := Sample.toy) (fs_start (fun _ => true) "ACCOUNT-2")
               (Sample.fs_restart
                  (state_of (renew (L := Sample.toy) (Sample.fs_ok "1" "CERT-PROD")
                               Sample.fs_ready)))))
     = auto_result (Sample.fs_ok "1" "CERT-PROD").
Proof.
  apply (X11_issued_pair_survives_restart (L := Sample.toy)
           (Sample.fs_ok "1" "CERT-PROD") (fs_start (fun _ => true) "ACCOUNT-2")
           Sample.fs_ready "ACCOUNT-2");
    vm_compute; reflexivity.
Defined.

End FsMore.

(** ** The remote variant *)

Module RemoteMore.
Import Remote.

(** X12.  [createOrRenewSSl] never lets a failure of the ACME exchange
    out as an exception: once [auto] was called and rejected, the run ends
    the process with code 1, with the published and the saved pair as they
    were.  It exits for no other reason, and what it throws is never the
    ACME error. *)
Theorem X12_failed_exchange_ends_the_process
    (x : Ext) (oldCert oldKey : JsVal) (s : State) :
  match result_of (createOrRenewSSl x oldCert oldKey s) with
  | Exited code =>
      code = 1 /\ auto_result x = None
      /\ autos (events_of (createOrRenewSSl x oldCert oldKey s)) <> []
      /\ ssl (state_of (createOrRenewSSl x oldCert oldKey s)) = ssl s
      /\ saved (state_of (createOrRenewSSl x oldCert oldKey s)) = saved s
  | Threw e => e <> AcmeError
  | Blocked => False
  | Returned _ => auto_result x <> None
  end
  /\ (autos (events_of (createOrRenewSSl x oldCert oldKey s)) <> [] ->
      auto_result x = None ->
      result_of (createOrRenewSSl x oldCert oldKey s) = Exited 1).
Proof.
  split.
  - RemoteFacts.renew_cases x s; RemoteFacts.quiet; done.
  - intros Ha Hn. revert Ha. RemoteFacts.renew_cases x s; RemoteFacts.quiet; done.
Qed.

Lemma X12_witness :
  result_of (createOrRenewSSl (Sample.rm_ext "1" None true) VTrue VTrue rm_fresh) = Exited 1.
Proof.
  apply (proj2 (X12_failed_exchange_ends_the_process
                  (Sample.rm_ext "1" None true) VTrue VTrue rm_fresh)).
  - vm_compute. discriminate.
  - reflexivity.
Defined.

(** X13.  [createOrRenewSSl] writes to the published pair at most once,
    by one [api.ssl.set] of the issued certificate with the key of its CSR,
    and only after the exchange succeeded; a run that writes nothing leaves
    the pair as it was and does not return. *)
Theorem X13_remote_publishes_once_after_the_exchange
    (x : Ext) (oldCert oldKey : JsVal) (s : State) :
  (writes (events_of (createOrRenewSSl x oldCert oldKey s)) = []
   /\ ssl (state_of (createOrRenewSSl x oldCert oldKey s)) = ssl s
   /\ result_of (createOrRenewSSl x oldCert oldKey s) <> Returned tt)
  \/ exists pem key csr,
       auto_result x = Some pem
       /\ createCsr_result x (cfg_domain s) = Some (key, csr)
       /\ writes (events_of (createOrRenewSSl x oldCert oldKey s))
          = [Some {| cert := VBuffer pem; key := VBuffer key |}]
       /\ ssl (state_of (createOrRenewSSl x oldCert oldKey s))
          = Some {| cert := VBuffer pem; key := VBuffer key |}.
Proof.
  RemoteFacts.renew_cases x s; RemoteFacts.quiet;
    try (by left); right; exists pem, key, csr; done.
Qed.

(** X14.  When the account key is generated and the store takes it, it is
    written under [/lumeweb/relay/account.key] before the CA is contacted. *)
Theorem X14_account_key_stored_before_the_exchange
    (x : Ext) (oldCert oldKey : JsVal) (s : State) (k : string) :
  (if open_ok x FILE_ACCOUNT_KEY_NAME then files s !! FILE_ACCOUNT_KEY_NAME else None) = None ->
  createPrivateKey_result x = Some k ->
  create_ok x FILE_ACCOUNT_KEY_NAME = true ->
  before_auto (stores_at FILE_ACCOUNT_KEY_NAME k) false
    (events_of (createOrRenewSSl x oldCert oldKey s)) = true.
Proof.
  intros Ho Hk Hc. RemoteFacts.renew_cases x s; simplify_eq; RemoteFacts.quiet;
    rewrite ?String.eqb_refl; cbn;
    rewrite ?app_nil_r, ?RemoteFacts.before_auto_script_events by (by intros ? ->);
    done.
Qed.

Lemma X14_witness :
  before_auto (stores_at FILE_ACCOUNT_KEY_NAME "ACCOUNT-1") false
    (events_of (createOrRenewSSl (Sample.rm_ext "1" (Some "CERT-PROD") true)
                  VTrue VTrue rm_fresh)) = true.
Proof.
  apply (X14_account_key_stored_before_the_exchange
           (Sample.rm_ext "1" (Some "CERT-PROD") true) VTrue VTrue rm_fresh "ACCOUNT-1");
    reflexivity.
Defined.

Lemma createOrRenewSSl_csr x oldCert oldKey s :
  Forall (fun ca => exists key csr,
              createCsr_result x (cfg_domain s) = Some (key, csr)
              /\ arg_csr ca.2 = Some csr)
    (autos (events_of (createOrRenewSSl x oldCert oldKey s))).
Proof.
  RemoteFacts.renew_cases x s; RemoteFacts.quiet;
    repeat first [apply Forall_nil_2 | apply Forall_cons_2; [by exists key, csr|]].
Qed.

Lemma createOrRenewSSl_directory x oldCert oldKey s :
  Forall (fun c => directoryUrl c = if isSSlStaging s then letsencrypt_staging
                                    else letsencrypt_production)
    (clients (events_of (createOrRenewSSl x oldCert oldKey s)))
  /\ Forall (fun ca => directoryUrl ca.1 = if isSSlStaging s then letsencrypt_staging
                                           else letsencrypt_production)
       (autos (events_of (createOrRenewSSl x oldCert oldKey s))).
Proof. RemoteFacts.renew_cases x s; RemoteFacts.quiet; split; repeat constructor. Qed.

Lemma createOrRenewSSl_first_event x oldCert oldKey s :
  head (events_of (createOrRenewSSl x oldCert oldKey s))
  = Some (ELog ((if truthy oldCert && truthy oldKey then "Renewing" else "Creating")
                +:+ " SSL Certificate for " +:+ cfg_domain s)).
Proof. RemoteFacts.renew_cases x s; done. Qed.

Section Check.
Context {L : Libs}.

(** X15.  When nothing is saved, or the saved pair cannot be fetched,
    [check] runs [createOrRenewSSl] on the placeholder pair
    [{cert: true, key: true}]: the run is the renewal's, after three
    suspensions, and since both placeholders are truthy its log line says
    "Renewing", also for the very first certificate. *)
Theorem X15_check_with_nothing_saved (x : Ext) (boot : bool) (s : State) :
  (if getSaved_ok x then saved s else None) = None ->
  check x boot s
  = (result_of (createOrRenewSSl x VTrue VTrue s),
     state_of (createOrRenewSSl x VTrue VTrue s),
     ESuspend (ssl s) :: ESuspend (ssl s) :: ESuspend (ssl s)
       :: events_of (createOrRenewSSl x VTrue VTrue s))
  /\ head (events_of (createOrRenewSSl x VTrue VTrue s))
     = Some (ELog ("Renewing SSL Certificate for " +:+ cfg_domain s)).
Proof.
  intros H. split; [|apply createOrRenewSSl_first_event].
  rewrite RemoteFacts.check_of_isSslValid.
  rewrite (RemoteFacts.isSslValid_missing x boot s H); cbn.
  by destruct (createOrRenewSSl x VTrue VTrue s) as [[]].
Qed.

(** X16.  When the saved certificate passes the date check and the
    domain-and-environment check, [check] publishes the saved pair by one
    [api.ssl.set] and does nothing else: no key or CSR is generated, the CA
    is not contacted, nothing is stored; the "Loaded" line is logged at
    boot only. *)
Theorem X16_check_publishes_a_valid_saved_pair (x : Ext) (boot : bool) (s : State)
    (d : SslData) (fileData : string) (certInfo : CertInfo) :
  getSaved_ok x = true -> saved s = Some d -> cert d = VFile fileData ->
  readCertificateInfo fileData = Some certInfo ->
  dateValid (daysLeft (intervalToDuration (now x) (notAfter certInfo)))
  && domainValid (isSSlStaging s) (cfg_domain s) certInfo = true ->
  check x boot s
  = (Returned tt, set_ssl (Some {| cert := cert d; key := key d |}) s,
     [ESuspend (ssl s); ESuspend (ssl s); ESuspend (ssl s);
      ESslWrite (Some {| cert := cert d; key := key d |})]
     ++ (if boot then [ELog ("Loaded SSL Certificate for " +:+ cfg_domain s)] else [])).
Proof.
  intros Hg Hs Hc Hp Hv. rewrite RemoteFacts.check_of_isSslValid.
  rewrite (RemoteFacts.isSslValid_parsed x boot s d fileData certInfo Hg Hs Hc Hp).
  rewrite Hv. unfold domainValid in Hv.
  destruct (issuerIsStaging certInfo); [done|].
  by rewrite andb_false_r in Hv.
Qed.

End Check.

Lemma X15_witness :
  check (L := Sample.toy) (Sample.rm_on 0) true rm_fresh
  = (result_of (createOrRenewSSl (Sample.rm_on 0) VTrue VTrue rm_fresh),
     state_of (createOrRenewSSl (Sample.rm_on 0) VTrue VTrue rm_fresh),
     ESuspend (ssl rm_fresh) :: ESuspend (ssl rm_fresh) :: ESuspend (ssl rm_fresh)
       :: events_of (createOrRenewSSl (Sample.rm_on 0) VTrue VTrue rm_fresh))
  /\ head (events_of (createOrRenewSSl (Sample.rm_on 0) VTrue VTrue rm_fresh))
     = Some (ELog ("Renewing SSL Certificate for " +:+ cfg_domain rm_fresh)).
Proof.
  apply (X15_check_with_nothing_saved (L := Sample.toy) (Sample.rm_on 0) true rm_fresh).
  reflexivity.
Defined.

Lemma X16_witness :
  check (L := Sample.toy) (Sample.rm_on 0) true
    (Sample.rm_state None (Some Sample.rm_old) "production")
  = (Returned tt,
     set_ssl (Some {| cert := cert Sample.rm_old; key := key Sample.rm_old |})
       (Sample.rm_state None (Some Sample.rm_old) "production"),
     [ESuspend None; ESuspend None; ESuspend None;
      ESslWrite (Some {| cert := cert Sample.rm_old; key := key Sample.rm_old |})]
     ++ [ELog ("Loaded SSL Certificate for " +:+ "example.test")]).
Proof.
  apply (X16_check_publishes_a_valid_saved_pair (L := Sample.toy) (Sample.rm_on 0) true
           (Sample.rm_state None (Some Sample.rm_old) "production")
           Sample.rm_old "CERT-PROD"
           {| notAfter := 90; domains_commonName := "example.test";
              issuer_commonName := Some "R3" |});
    reflexivity.
Defined.

End RemoteMore.

(** ** Both variants *)

Lemma valid_iff (left : Z) (staging : bool) (configDomain : string) (certInfo : CertInfo)
    (commonName : string) :
  issuer_commonName certInfo = Some commonName ->
  dateValid left && domainValid staging configDomain certInfo = true
  <-> 30 < left
      /\ domains_commonName certInfo = configDomain
      /\ Js.includes "staging" (Js.toLowerCase commonName) = staging.
Proof.
  intros Hcn. unfold dateValid, domainValid, issuerIsStaging. rewrite Hcn; cbn.
  rewrite andb_true_iff, Z.ltb_lt.
  destruct staging, (Js.includes "staging" (Js.toLowerCase commonName)); cbn;
    rewrite ?String.eqb_eq; intuition congruence.
Qed.

(** X17.  A certificate that parses and whose issuer has a common name is
    found valid exactly when more than 30 days are left, its common name is
    the configured domain, and the issuer's common name contains "staging"
    (whatever the case) exactly when staging is configured: the ["staging"]
    flag in the file-system variant, ["ssl-mode"] being ["staging"] in the
    remote one.  Then the file-system [check] ends without touching
    anything, and the remote [isSslValid] answers [error = false]; in every
    other case (a domain mismatch among them) a renewal is asked for.  When
    the issuer has no common name the check raises a [TypeError] instead,
    whatever the dates and the domain. *)
Theorem X17_valid_exactly_when_date_domain_and_environment_agree {L : Libs} :
  (forall (x : Fs.Ext) (s : Fs.State) (pem : string) (certInfo : CertInfo),
      Fs.sslCert s = Some pem ->
      Js.truthy (Fs.sslCert s) && Js.truthy (Fs.sslKey s) = true ->
      readCertificateInfo pem = Some certInfo ->
      let left := daysLeft (intervalToDuration (Fs.now x) (notAfter certInfo)) in
      (issuer_commonName certInfo = None ->
       Fs.check x s = (Threw TypeError, s, [ESuspend (Fs.api_ssl s)]))
      /\ (forall commonName : string,
            issuer_commonName certInfo = Some commonName ->
            let agree := 30 < left
                         /\ domains_commonName certInfo = Fs.api_domain s
                         /\ Js.includes "staging" (Js.toLowerCase commonName)
                            = Fs.api_staging s in
            (agree -> Fs.check x s = (Returned tt, s, [ESuspend (Fs.api_ssl s)]))
            /\ (~ agree -> Fs.check x s = Fs.await (Fs.renew x) s)))
  /\ (forall (x : Remote.Ext) (boot : bool) (s : Remote.State) (sslData : Remote.SslData)
             (fileData : string) (certInfo : CertInfo),
        Remote.getSaved_ok x = true ->
        Remote.saved s = Some sslData ->
        Remote.cert sslData = Remote.VFile fileData ->
        readCertificateInfo fileData = Some certInfo ->
        let left := daysLeft (intervalToDuration (Remote.now x) (notAfter certInfo)) in
        (issuer_commonName certInfo = None ->
         result_of (Remote.isSslValid x boot s) = Threw TypeError)
        /\ (forall commonName : string,
              issuer_commonName certInfo = Some commonName ->
              (result_of (Remote.isSslValid x boot s) = Returned (sslData, false)
               <-> 30 < left
                   /\ domains_commonName certInfo = Remote.cfg_domain s
                   /\ (Js.includes "staging" (Js.toLowerCase commonName) = true
                       <-> Remote.cfg_ssl_mode s = "staging"))
              /\ (result_of (Remote.isSslValid x boot s) = Returned (sslData, false)
                  \/ result_of (Remote.isSslValid x boot s) = Returned (sslData, true)))).
Proof.
  split.
  - intros x s pem certInfo Hc Ht Hp left.
    rewrite (FsFacts.check_parsed x s pem certInfo Hc Ht Hp). fold left. split.
    + intros Hcn. unfold issuerIsStaging. by rewrite Hcn.
    + intros commonName Hcn agree.
      pose proof (valid_iff left (Fs.isSSlStaging s) (Fs.api_domain s) certInfo
                    commonName Hcn) as Hv.
      unfold Fs.isSSlStaging in Hv. fold agree in Hv.
      assert (issuerIsStaging certInfo
              = Some (Js.includes "staging" (Js.toLowerCase commonName))) as Hi
        by (unfold issuerIsStaging; by rewrite Hcn).
      rewrite Hi. unfold Fs.isSSlStaging.
      destruct (dateValid left && domainValid _ _ certInfo); split; intros H; try done.
      * destruct H. by apply Hv.
      * apply Hv in H. done.
  - intros x boot s sslData fileData certInfo Hg Hs Hc Hp left.
    rewrite (RemoteFacts.isSslValid_parsed x boot s sslData fileData certInfo Hg Hs Hc Hp).
    fold left. cbn. split.
    + intros Hcn. unfold issuerIsStaging. by rewrite Hcn.
    + intros commonName Hcn.
      pose proof (valid_iff left (Remote.isSSlStaging s) (Remote.cfg_domain s) certInfo
                    commonName Hcn) as Hv.
      assert (Js.includes "staging" (Js.toLowerCase commonName) = Remote.isSSlStaging s
              <-> (Js.includes "staging" (Js.toLowerCase commonName) = true
                   <-> Remote.cfg_ssl_mode s = "staging")) as Hm.
      { unfold Remote.isSSlStaging.
        destruct (String.eqb_spec (Remote.cfg_ssl_mode s) "staging"),
                 (Js.includes "staging" (Js.toLowerCase commonName));
          intuition congruence. }
      rewrite Hm in Hv. rewrite <- Hv.
      assert (issuerIsStaging certInfo
              = Some (Js.includes "staging" (Js.toLowerCase commonName))) as Hi
        by (unfold issuerIsStaging; by rewrite Hcn).
      rewrite Hi.
      destruct (dateValid left && domainValid _ _ certInfo); cbn;
        split; try (split; congruence).
      * by left.
      * by right.
Qed.

(** Thirty-one days left, the configured domain, a production issuer
    under a production configuration: valid. *)
Lemma X17_witness :
  result_of (Remote.isSslValid (L := Sample.toy) (Sample.rm_on 59) false
               (Sample.rm_state None (Some Sample.rm_old) "production"))
  = Returned (Sample.rm_old, false).
Proof.
  apply (proj2 (proj1 (proj2 (proj2 (X17_valid_exactly_when_date_domain_and_environment_agree
                                       (L := Sample.toy))
                                (Sample.rm_on 59) false
                                (Sample.rm_state None (Some Sample.rm_old) "production")
                                Sample.rm_old "CERT-PROD"
                                {| notAfter := 90; domains_commonName := "example.test";
                                   issuer_commonName := Some "R3" |}
                                eq_refl eq_refl eq_refl eq_refl)
                         "R3" eq_refl))).
  vm_compute. repeat split; try reflexivity; discriminate.
Defined.

(** The same saved pair when its issuer carries no common name: the check
    raises. *)
Example issuer_without_common_name_raises :
  result_of (Remote.isSslValid (L := Sample.toy) (Sample.rm_on 0) false
               (Sample.rm_state None (Some Sample.rm_no_issuer_cn) "production"))
  = Threw TypeError.
Proof. vm_compute. reflexivity. Qed.

(** A certificate for another domain, ninety days from expiry, issued by
    the configured CA: a renewal is asked for. *)
Example domain_mismatch_asks_for_renewal :
  result_of (Remote.isSslValid (L := Sample.toy) (Sample.rm_on 0) false
               (Sample.rm_state None
                  (Some {| Remote.cert := Remote.VFile "CERT-OTHER";
                           Remote.key := Remote.VFile "KEY-0" |}) "production"))
  = Returned ({| Remote.cert := Remote.VFile "CERT-OTHER";
                 Remote.key := Remote.VFile "KEY-0" |}, true).
Proof. vm_compute. reflexivity. Qed.

(** X18.  Every call of [auto], in either variant, carries the CSR that
    [createCsr] produced in the same invocation for the configured domain
    ([api.ssl.domain], resp. the ["domain"] setting). *)
Theorem X18_auto_gets_the_csr_of_the_configured_domain :
  (forall (L : Libs) (x : Fs.Ext) (s : Fs.State),
      Forall (fun ca => exists key csr,
                  Fs.createCsr_result x (Fs.api_domain s) = Some (key, csr)
                  /\ arg_csr ca.2 = Some csr)
        (autos (events_of (Fs.renew x s))))
  /\ (forall (x : Remote.Ext) (oldCert oldKey : Remote.JsVal) (s : Remote.State),
        Forall (fun ca => exists key csr,
                    Remote.createCsr_result x (Remote.cfg_domain s) = Some (key, csr)
                    /\ arg_csr ca.2 = Some csr)
          (autos (events_of (Remote.createOrRenewSSl x oldCert oldKey s)))).
Proof.
  split.
  - intros L x s. apply FsMore.renew_csr.
  - intros x oldCert oldKey s. apply RemoteMore.createOrRenewSSl_csr.
Qed.

Lemma staging_is_not_production : letsencrypt_staging <> letsencrypt_production.
Proof. discriminate. Qed.

(** X19.  The ACME client talks to the staging directory exactly when
    staging is configured, and to the production directory otherwise: in
    the file-system variant by the ["staging"] flag read when the plugin
    starts, in the remote variant by ["ssl-mode"] being exactly
    ["staging"], read at each renewal. *)
Theorem X19_directory_follows_the_configuration :
  (forall (L : Libs) (x : Fs.Ext) (s : Fs.State),
      result_of (Fs.plugin x s) = Returned tt ->
      exists c, Fs.client (state_of (Fs.plugin x s)) = Some c
                /\ (directoryUrl c = letsencrypt_staging <-> Fs.api_staging s = true)
                /\ (directoryUrl c = letsencrypt_production <-> Fs.api_staging s = false))
  /\ (forall (x : Remote.Ext) (oldCert oldKey : Remote.JsVal) (s : Remote.State),
        Forall (fun ca =>
                  (directoryUrl ca.1 = letsencrypt_staging
                   <-> Remote.cfg_ssl_mode s = "staging")
                  /\ (directoryUrl ca.1 = letsencrypt_production
                      <-> Remote.cfg_ssl_mode s <> "staging"))
          (autos (events_of (Remote.createOrRenewSSl x oldCert oldKey s)))).
Proof.
  split.
  - intros L x s Hr. pose proof (FsMore.plugin_directory x s Hr) as H.
    destruct (Fs.client (state_of (Fs.plugin x s))) as [c|]; [|done].
    injection H as H. exists c. split; [done|]. rewrite H.
    destruct (Fs.api_staging s); split; split; try done;
      intros E; by destruct staging_is_not_production.
  - intros x oldCert oldKey s.
    destruct (RemoteMore.createOrRenewSSl_directory x oldCert oldKey s) as [_ H].
    eapply Forall_impl; [exact H|]. intros ca ->. unfold Remote.isSSlStaging.
    destruct (String.eqb_spec (Remote.cfg_ssl_mode s) "staging") as [E|E];
      split; split; try done; intros E'; by destruct staging_is_not_production.
Qed.

Lemma X19_witness :
  exists c,
    Fs.client (state_of (Fs.plugin (L := Sample.toy) (Sample.fs_ok "1" "CERT-PROD")
                           Sample.fs_boot)) = Some c
    /\ (directoryUrl c = letsencrypt_staging <-> Fs.api_staging Sample.fs_boot = true)
    /\ (directoryUrl c = letsencrypt_production <-> Fs.api_staging Sample.fs_boot = false).
Proof.
  apply (proj1 X19_directory_follows_the_configuration Sample.toy
           (Sample.fs_ok "1" "CERT-PROD") Sample.fs_boot).
  vm_compute; reflexivity.
Defined.
